(** * Sequential decomposition of Pyomo network models

    A shallow embedding of [pyomo/network/decomposition.py]
    (class [SequentialDecomposition]) and the properties of its graph
    engine and tear-convergence driver.

    Conventions of the embedding:
    - nodes, edge keys, ports, arcs and variables are natural-number
      identifiers; a [networkx.MultiDiGraph] is the list of its nodes and the
      list of its [(src, dst, key)] edges, both in iteration order, so that
      the index of an edge is its position in [G.edges];
    - Python lists indexed by integers are lists with stdpp's lookup and
      insert, and an index out of range raises [IndexError] as in Python;
    - a Python [set] of integers is a strictly increasing list (iteration in
      ascending order);
    - floats are IEEE binary64 ([PrimFloat]), as numpy's [float64];
    - recursion and [while True] loops take a fuel argument; running out of
      fuel is the outcome [OutOfFuel], which is no behaviour of the program,
      and the theorems show where it cannot happen. *)

From Stdlib Require Import Floats.
From stdpp Require Import base tactics option list gmap strings.

Set Default Proof Using "Type".
Open Scope string_scope.
Open Scope list_scope.

(** ** Exceptions and results *)

Inductive exn : Type :=
  | IndexError
  | KeyError
  | ZeroDivisionError
  | UnboundLocalError
  | AssertionError
  | TypeError (msg : string)
  | ValueError (msg : string)
  | RuntimeError (msg : string).

Inductive res (A : Type) : Type :=
  | Ok (a : A)
  | Raise (e : exn)
  | OutOfFuel.
Arguments Ok {A} a.
Arguments Raise {A} e.
Arguments OutOfFuel {A}.

#[global] Instance res_ret : MRet res := fun _ a => Ok a.
#[global] Instance res_bind : MBind res := fun _ _ f m =>
  match m with
  | Ok a => f a
  | Raise e => Raise e
  | OutOfFuel => OutOfFuel
  end.

(** [l[i]] for a Python list. *)
Definition py_get {A} (l : list A) (i : nat) : res A :=
  match l !! i with
  | Some a => Ok a
  | None => Raise IndexError
  end.

(** [l[i] = x] for a Python list. *)
Definition py_set {A} (l : list A) (i : nat) (x : A) : res (list A) :=
  if decide (i < length l) then Ok (<[i:=x]> l) else Raise IndexError.

(** [for x in l: body] threading an accumulator, stopping at the first
    exception. *)
Fixpoint res_fold {A S} (body : S -> A -> res S) (s : S) (l : list A) : res S :=
  match l with
  | [] => Ok s
  | x :: l' => s' ← body s x; res_fold body s' l'
  end.

(** ** Python sets of integers *)

Module PySet.

Fixpoint add (x : nat) (s : list nat) : list nat :=
  match s with
  | [] => [x]
  | y :: s' =>
      if decide (x < y) then x :: s
      else if decide (x = y) then s
      else y :: add x s'
  end.

(** [s.update(l)] *)
Definition update (s l : list nat) : list nat :=
  foldl (fun acc x => add x acc) s l.

(** [set(l)] *)
Definition of_list (l : list nat) : list nat := update [] l.

(** [s.difference(t)] *)
Definition difference (s t : list nat) : list nat :=
  filter (fun x => x ∉ t) s.

(** [s.union(t)] *)
Definition union (s t : list nat) : list nat := update s t.

End PySet.

(** ** The graph and its indexers *)

Definition node := nat.
Definition key := nat.
Definition edge : Type := node * node * key.

Record MultiDiGraph : Type := {
  nodes : list node;     (* [G.nodes], in iteration order *)
  edges : list edge;     (* [G.edges], in iteration order *)
  edge_arcs : list nat   (* [G.edges[e]["arc"]], by edge index *)
}.

Definition e_src (e : edge) : node := e.1.1.
Definition e_dst (e : edge) : node := e.1.2.
Definition e_key (e : edge) : key := e.2.

(** [G.out_edges(node, keys=True)] and [G.in_edges(node, keys=True)] *)
Definition out_edges (G : MultiDiGraph) (n : node) : list edge :=
  filter (fun e => e_src e = n) (edges G).
Definition in_edges (G : MultiDiGraph) (n : node) : list edge :=
  filter (fun e => e_dst e = n) (edges G).

Definition number_of_edges (G : MultiDiGraph) : nat := length (edges G).

(** [l.index(x)] *)
Fixpoint index_of {A} `{EqDecision A} (x : A) (l : list A) : option nat :=
  match l with
  | [] => None
  | y :: l' => if decide (x = y) then Some 0 else S <$> index_of x l'
  end.

Definition idx_to_node (G : MultiDiGraph) : list node := nodes G.
Definition idx_to_edge (G : MultiDiGraph) : list edge := edges G.

(** [node_to_idx] and [edge_to_idx] build a dict by enumeration: a later
    occurrence of a key overrides an earlier one. *)
Definition enum_map {A} `{Countable A} (l : list A) : gmap A nat :=
  (foldl (fun acc x => (<[x := acc.2]> acc.1, S acc.2)) (∅, 0) l).1.

Definition node_to_idx (G : MultiDiGraph) : gmap node nat := enum_map (nodes G).
Definition edge_to_idx (G : MultiDiGraph) : gmap edge nat := enum_map (edges G).

(** [d[k]] for a Python dict. *)
Definition py_key {K A} `{Countable K} (d : gmap K A) (k : K) : res A :=
  match d !! k with
  | Some a => Ok a
  | None => Raise KeyError
  end.

(** ** [adj_lists] *)

(** One row of an adjacency list: the loop over [G.out_edges(node)] (or
    [G.in_edges(node)], with [other] the far end of the edge). Entries are
    [(index, key)] pairs; without [multi] only the indexes are kept. *)
Fixpoint adj_row (multi : bool) (nds : list node) (n2i : gmap node nat)
    (exclude : list edge) (other : edge -> node)
    (es : list edge) (seen : list node) : res (list (nat * key)) :=
  match es with
  | [] => Ok []
  | e :: es' =>
      let suc := other e in
      if negb multi && bool_decide (suc ∈ seen)
      then adj_row multi nds n2i exclude other es' seen
      else if bool_decide (suc ∈ nds) && bool_decide (e ∉ exclude)
      then i ← py_key n2i suc;
           rest ← adj_row multi nds n2i exclude other es' (suc :: seen);
           Ok ((i, e_key e) :: rest)
      else adj_row multi nds n2i exclude other es' seen
  end.

Definition adj_lists_multi (multi : bool) (G : MultiDiGraph)
    (excludeEdges : option (list nat)) (nds : option (list node))
  : res (list node * list (list (nat * key)) * list (list (nat * key))) :=
  exclude ← match excludeEdges with
            | None => Ok []
            | Some l => res_fold (fun acc ei => e ← py_get (idx_to_edge G) ei;
                                                Ok (acc ++ [e])) [] l
            end;
  let nds := default (idx_to_node G) nds in
  let i2n := nds in
  let n2i := enum_map nds in
  adj ← res_fold (fun acc n =>
           row ← adj_row multi nds n2i exclude e_dst (out_edges G n) [];
           Ok (acc ++ [row])) [] nds;
  adjR ← res_fold (fun acc n =>
           row ← adj_row multi nds n2i exclude e_src (in_edges G n) [];
           Ok (acc ++ [row])) [] nds;
  Ok (i2n, adj, adjR).

(** [adj_lists(G, excludeEdges, nodes)] with [multi=False]: lists of indexes. *)
Definition adj_lists (G : MultiDiGraph) (excludeEdges : option (list nat))
    (nds : option (list node)) : res (list node * list (list nat) * list (list nat)) :=
  r ← adj_lists_multi false G excludeEdges nds;
  let '(i2n, adj, adjR) := r in
  Ok (i2n, map (map fst) adj, map (map fst) adjR).

(** ** [tree_order] *)

Module TreeOrder.

(** [for sucs in adj: for i in sucs: r[i] = False] *)
Definition clear_successors (adj : list (list nat)) (r : list bool)
  : res (list bool) :=
  res_fold (fun r sucs => res_fold (fun r i => py_set r i false) r sucs) r adj.

(** [for i in range(len(r)): if r[i]: roots.append(i)] *)
Definition true_indexes (r : list bool) : list nat :=
  filter (fun i => r !! i = Some true) (seq 0 (length r)).

(** The marking of the descendants of given roots:
    [while len(lst) > 0: lst2 = []; for i in lst: mark[i] = True;
     lst2 += adj[i]; lst = set(lst2)]. *)
Fixpoint mark_descendants (fuel : nat) (adj : list (list nat))
    (mark : list bool) (lst : list nat) : res (list bool) :=
  match lst with
  | [] => Ok mark
  | _ :: _ =>
      match fuel with
      | 0 => OutOfFuel
      | S fuel' =>
          r ← res_fold (fun acc i =>
                 mark' ← py_set acc.1 i true;
                 sucs ← py_get adj i;
                 Ok (mark', acc.2 ++ sucs)) (mark, []) lst;
          mark_descendants fuel' adj r.1 (PySet.of_list r.2)
      end
  end.

(** The state of one pass of [for i in checknodes]. *)
Record pass : Type := {
  p_adjR : list (list nat);      (* [adjR], each entry a set *)
  p_ndepth : list (option nat);  (* [ndepth] *)
  p_lst : list nat;              (* [lst], the next level *)
  p_delSet : list nat;           (* [delSet] *)
  p_checkUpdate : list nat       (* [checkUpdate] *)
}.

(** [for j in adjR[i]]: the predecessors to remove from [adjR[i]]. *)
Definition rem_set (mark : list bool) (prev : list nat) (preds : list nat)
  : res (list nat) :=
  res_fold (fun remSet j =>
    if bool_decide (j ∈ prev) then Ok (PySet.add j remSet)
    else m ← py_get mark j;
         if (m : bool) then Ok remSet else Ok (PySet.add j remSet)) [] preds.

(** The body of [for i in checknodes], at depth [depth] with
    [prev = order[depth - 1]]. *)
Definition check_node (adj : list (list nat)) (mark : list bool)
    (prev : list nat) (depth : nat) (p : pass) (i : nat) : res pass :=
  match p_ndepth p !! i with
  | None => Raise IndexError
  | Some (Some _) =>
      Raise (RuntimeError "Function tree_order does not work with cycles")
  | Some None =>
      preds ← py_get (p_adjR p) i;
      remSet ← rem_set mark prev preds;
      let preds' := PySet.difference preds remSet in
      adjR' ← py_set (p_adjR p) i preds';
      if decide (length preds' = 0) then
        ndepth' ← py_set (p_ndepth p) i (Some depth);
        sucs ← py_get adj i;
        Ok {| p_adjR := adjR'; p_ndepth := ndepth';
              p_lst := p_lst p ++ [i];
              p_delSet := PySet.add i (p_delSet p);
              p_checkUpdate := PySet.update (p_checkUpdate p) sucs |}
      else
        Ok {| p_adjR := adjR'; p_ndepth := p_ndepth p; p_lst := p_lst p;
              p_delSet := p_delSet p; p_checkUpdate := p_checkUpdate p |}
  end.

(** [while len(lst) > 0: ...]; [order] is the list of levels so far. *)
Fixpoint levels (fuel : nat) (adj : list (list nat)) (mark : list bool)
    (adjR : list (list nat)) (ndepth : list (option nat))
    (order : list (list nat)) (lst : list nat) (checknodes : list nat)
    (depth : nat) : res (list (list nat)) :=
  match lst with
  | [] => Ok order
  | _ :: _ =>
      match fuel with
      | 0 => OutOfFuel
      | S fuel' =>
          let order' := order ++ [lst] in
          let depth' := S depth in
          p ← res_fold (check_node adj mark lst depth')
                {| p_adjR := adjR; p_ndepth := ndepth; p_lst := [];
                   p_delSet := []; p_checkUpdate := [] |} checknodes;
          let checknodes' :=
            PySet.union (PySet.difference checknodes (p_delSet p))
                        (p_checkUpdate p) in
          levels fuel' adj mark (p_adjR p) (p_ndepth p) order' (p_lst p)
                 checknodes' depth'
      end
  end.

(** [tree_order(adj, adjR, roots)] *)
Definition tree_order (fuel : nat) (adj adjR : list (list nat))
    (roots : option (list nat)) : res (list (list nat)) :=
  let adjR := map PySet.of_list adjR in
  rm ← match roots with
       | None =>
           let mark := replicate (length adj) true in
           r ← clear_successors adj (replicate (length adj) true);
           Ok (true_indexes r, mark)
       | Some roots =>
           mark ← mark_descendants fuel adj (replicate (length adj) false) roots;
           Ok (roots, mark)
       end;
  let '(roots, mark) := rm in
  let ndepth := replicate (length adj) None in
  checknodes ← res_fold (fun acc i => sucs ← py_get adj i;
                                       Ok (PySet.update acc sucs)) [] roots;
  levels fuel adj mark adjR ndepth [] roots checknodes 0.

End TreeOrder.



(** ** [scc_collect] and [scc_calculation_order] *)

Module SCC.

(** The variables shared by the calls of [sc]. The stack [stk] is kept
    with its top first. *)
Record st : Type := {
  ndepth : list (option nat);
  back : list (option nat);
  stk : list nat;
  strngComps : list (list node)
}.

(** [back[v] = min(back[w], back[v])] *)
Definition lower_back (s : st) (v w : nat) : res st :=
  bw ← py_get (back s) w;
  bv ← py_get (back s) v;
  match bw, bv with
  | Some bw, Some bv =>
      back' ← py_set (back s) v (Some (bw `min` bv));
      Ok {| ndepth := ndepth s; back := back'; stk := stk s;
            strngComps := strngComps s |}
  | _, _ => Raise (TypeError "min of None")
  end.

(** [while True: w = stk.pop(); scomp.append(i2n[w]); if w == v: break] *)
Fixpoint pop_component (i2n : list node) (v : nat) (stk : list nat)
    (scomp : list node) : res (list nat * list node) :=
  match stk with
  | [] => Raise IndexError
  | w :: stk' =>
      n ← py_get i2n w;
      if decide (w = v) then Ok (stk', scomp ++ [n])
      else pop_component i2n v stk' (scomp ++ [n])
  end.

(** The recursive function [sc(v, stk, depth, strngComps)]. The depth
    returned by a recursive call is dropped by the caller, as in the
    source, so only the state is returned. *)
Fixpoint sc (fuel : nat) (i2n : list node) (adj : list (list nat))
    (v depth : nat) (s : st) : res st :=
  match fuel with
  | 0 => OutOfFuel
  | S fuel' =>
      ndepth' ← py_set (ndepth s) v (Some depth);
      back' ← py_set (back s) v (Some depth);
      let s := {| ndepth := ndepth'; back := back'; stk := v :: stk s;
                  strngComps := strngComps s |} in
      let depth := S depth in
      sucs ← py_get adj v;
      s ← res_fold (fun s w =>
             match ndepth s !! w with
             | None => Raise IndexError
             | Some None =>
                 s' ← sc fuel' i2n adj w depth s;
                 lower_back s' v w
             | Some (Some _) =>
                 if bool_decide (w ∈ stk s) then lower_back s v w else Ok s
             end) s sucs;
      bv ← py_get (back s) v;
      dv ← py_get (ndepth s) v;
      if decide (bv = dv) then
        r ← pop_component i2n v (stk s) [];
        Ok {| ndepth := ndepth s; back := back s; stk := r.1;
              strngComps := strngComps s ++ [r.2] |}
      else Ok s
  end.

(** [sub_graph_edges(G, nodes)]: the edge indexes inside the subgraph,
    entering it and leaving it. *)
Definition sub_graph_edges (G : MultiDiGraph) (nds : list node)
  : list nat * list nat * list nat :=
  foldl (fun acc i =>
           let '(e, ie, oe) := acc in
           match idx_to_edge G !! i with
           | Some (src, dest, _) =>
               if bool_decide (src ∈ nds) then
                 if bool_decide (dest ∈ nds) then (e ++ [i], ie, oe)
                 else (e, ie, oe ++ [i])
               else if bool_decide (dest ∈ nds) then (e, ie ++ [i], oe)
               else acc
           | None => acc
           end)
        ([], [], []) (seq 0 (number_of_edges G)).

(** [l[i].append(x)] *)
Definition append_at (l : list (list nat)) (i x : nat) : res (list (list nat)) :=
  row ← py_get l i; py_set l i (row ++ [x]).

(** [for oute in oe[j]: if ine == oute: adj[j].append(i);
     adjR[i].append(j); done = True] *)
Definition match_out (i j ine : nat) (acc : list (list nat) * list (list nat) * bool)
    (oute : nat) : res (list (list nat) * list (list nat) * bool) :=
  let '(adj, adjR, done) := acc in
  if decide (ine = oute) then
    adj' ← append_at adj j i;
    adjR' ← append_at adjR i j;
    Ok (adj', adjR', true)
  else Ok acc.

(** [for ine in ie[i]: (for oute in oe[j]: ...); if done: break] *)
Fixpoint match_in (i j : nat) (oej : list nat)
    (acc : list (list nat) * list (list nat) * bool) (iei : list nat)
  : res (list (list nat) * list (list nat) * bool) :=
  match iei with
  | [] => Ok acc
  | ine :: iei' =>
      acc' ← res_fold (match_out i j ine) acc oej;
      if (acc'.2 : bool) then Ok acc' else match_in i j oej acc' iei'
  end.

(** [for j in range(len(sccNodes)): (for ine in ie[i]: ...); if done: break] *)
Fixpoint scan_sources (ie oe : list (list nat)) (i : nat)
    (acc : list (list nat) * list (list nat) * bool) (js : list nat)
  : res (list (list nat) * list (list nat) * bool) :=
  match js with
  | [] => Ok acc
  | j :: js' =>
      iei ← py_get ie i;
      acc' ← match iei with
             | [] => Ok acc
             | _ :: _ => oej ← py_get oe j; match_in i j oej acc iei
             end;
      if (acc'.2 : bool) then Ok acc' else scan_sources ie oe i acc' js'
  end.

(** [scc_calculation_order(sccNodes, ie, oe)] *)
Definition scc_calculation_order (fuel : nat) (sccNodes : list (list node))
    (ie oe : list (list nat)) : res (list (list nat)) :=
  let n := length sccNodes in
  let adj := replicate n [] in
  let adjR := replicate n [] in
  r ← res_fold (fun acc i =>
         acc' ← scan_sources ie oe i (acc.1, acc.2, false) (seq 0 n);
         Ok (acc'.1.1, acc'.1.2))
       (adj, adjR) (seq 0 n);
  TreeOrder.tree_order fuel r.1 r.2 None.

(** [scc_collect(G, excludeEdges)] returns
    [(sccNodes, sccEdges, sccOrder, outEdges)]. *)
Definition scc_collect (fuel : nat) (G : MultiDiGraph)
    (excludeEdges : option (list nat))
  : res (list (list node) * list (list nat) * list (list nat) * list (list nat)) :=
  a ← adj_lists G excludeEdges None;
  let '(i2n, adj, _) := a in
  let s0 := {| ndepth := replicate (length i2n) None;
               back := replicate (length i2n) None;
               stk := []; strngComps := [] |} in
  s ← res_fold (fun s v =>
         match ndepth s !! v with
         | Some None => sc fuel i2n adj v 0 s
         | _ => Ok s
         end) s0 (seq 0 (length i2n));
  let sccNodes := strngComps s in
  let parts := map (sub_graph_edges G) sccNodes in
  let sccEdges := map (fun p => p.1.1) parts in
  let inEdges := map (fun p => p.1.2) parts in
  let outEdges := map (fun p => p.2) parts in
  sccOrder ← scc_calculation_order fuel sccNodes inEdges outEdges;
  Ok (sccNodes, sccEdges, sccOrder, outEdges).

End SCC.

(** A graph whose four nodes lie on one cycle [3 -> 2 -> 1 -> 0 -> 3]. *)
Definition G_ring : MultiDiGraph :=
  {| nodes := [0; 1; 2; 3];
     edges := [(0, 1, 0); (0, 3, 0); (1, 2, 0); (1, 0, 0); (2, 1, 0); (3, 2, 0)];
     edge_arcs := [0; 1; 2; 3; 4; 5] |}.

(** Two chains [0 -> 1] and [2 -> 3 -> 1] meeting in node 1. *)
Definition G_join : MultiDiGraph :=
  {| nodes := [0; 1; 2; 3];
     edges := [(0, 1, 0); (2, 3, 0); (3, 1, 0)];
     edge_arcs := [0; 1; 2] |}.



(** ** numpy arrays of [float64] and [compute_err] *)

Module Np.

Open Scope float_scope.

(** An elementwise binary operation with numpy's broadcasting of
    one-dimensional arrays: equal lengths, or one operand of length 1. *)
Definition binop (f : float -> float -> float) (a b : list float)
  : res (list float) :=
  if decide (length a = length b) then Ok (zip_with f a b)
  else match a, b with
       | [x], _ => Ok (map (f x) b)
       | _, [y] => Ok (map (fun x => f x y) a)
       | _, _ => Raise (ValueError "operands could not be broadcast together")
       end.

(** [a[mask(a)] = x] *)
Definition assign_where (mask : float -> bool) (x : float) (a : list float)
  : list float :=
  map (fun y => if mask y then x else y) a.

(** [numpy.max(a)]: NaN propagates; an empty array is an error. *)
Definition maximum (x y : float) : float :=
  if is_nan x then x else if is_nan y then y else if x <? y then y else x.

Definition max (a : list float) : res float :=
  match a with
  | [] => Raise (ValueError "zero-size array to reduction operation maximum")
  | x :: a' => Ok (foldl maximum x a')
  end.

(** [numpy.abs(a)] *)
Definition abs (a : list float) : list float := map PrimFloat.abs a.

End Np.

(** [for i in range(len(err)): if numpy.isinf(err[i]): err[i] = diff[i]] *)
Definition restore_inf (diff : list float) (err : list float) : res (list float) :=
  res_fold (fun err i =>
              e ← py_get err i;
              if is_infinity e then d ← py_get diff i; py_set err i d
              else Ok err)
           err (seq 0 (length err)).

(** [compute_err(svals, dvals, tol_type)] *)
Definition compute_err (svals dvals : list float) (tol_type : string)
  : res (list float) :=
  if bool_decide (tol_type ∉ ["abs"; "rel"])
  then Raise (ValueError "Invalid tol_type")
  else
    diff ← Np.binop PrimFloat.sub svals dvals;
    if decide (tol_type = "abs") then Ok diff
    else
      err ← Np.binop PrimFloat.div diff svals;
      let err := Np.assign_where is_nan 0%float err in
      if existsb is_infinity err then restore_inf diff err else Ok err.


(** ** [tear_upper_bound] *)

Module TearUB.

(** The variables shared by the calls of [cyc]: [depths] and [tearSet].
    The dict [parents] is written by the source and never read; it is left
    out. *)
Record st : Type := {
  depths : gmap node (option nat);
  tearSet : list nat
}.

(** [edge_list.index((node, suc, key))] *)
Definition edge_index (G : MultiDiGraph) (e : edge) : res nat :=
  match index_of e (idx_to_edge G) with
  | Some i => Ok i
  | None => Raise (ValueError "not in list")
  end.

(** The body of [for edge in G.out_edges(node, keys=True)], after the
    recursive call [rec] is fixed. *)
Definition visit_edge (G : MultiDiGraph) (rec : node -> st -> res st)
    (n : node) (s : st) (e : edge) : res st :=
  let suc := e_dst e in
  match depths s !! suc with
  | None => Raise KeyError
  | Some None => rec suc s
  | Some (Some d) =>
      match depths s !! n with
      | Some (Some dn) =>
          if decide (d < dn) then
            i ← edge_index G (n, suc, e_key e);
            Ok {| depths := depths s; tearSet := tearSet s ++ [i] |}
          else Ok s
      | Some None => Raise (TypeError "comparison with None")
      | None => Raise KeyError
      end
  end.

(** The recursive function [cyc(node, depth)]. *)
Fixpoint cyc (fuel : nat) (G : MultiDiGraph) (n : node) (depth : nat)
    (s : st) : res st :=
  match fuel with
  | 0 => OutOfFuel
  | S fuel' =>
      let s := {| depths := <[n := Some depth]> (depths s);
                  tearSet := tearSet s |} in
      res_fold (visit_edge G (fun suc s => cyc fuel' G suc (S depth) s) n)
               s (out_edges G n)
  end.

(** [tear_upper_bound(G)] *)
Definition tear_upper_bound (fuel : nat) (G : MultiDiGraph) : res (list nat) :=
  let s0 := {| depths := foldl (fun d n => <[n := None]> d) ∅ (nodes G);
               tearSet := [] |} in
  s ← res_fold (fun s n =>
         match depths s !! n with
         | Some None => cyc fuel G n 0 s
         | Some (Some _) => Ok s
         | None => Raise KeyError
         end) s0 (nodes G);
  Ok (tearSet s).

End TearUB.

(** ** [all_cycles] and [cycle_edge_matrix] *)

Module Cycles.

(** The variables shared by the calls of [backtrack]. Both stacks are
    kept with their top first; a cycle is a list of [(node index, key)]
    pairs, the key of the first being [None]. *)
Record st : Type := {
  adj : list (list (nat * key));
  pointStack : list (nat * option key);
  markStack : list nat;
  mark : list bool;
  cycles : list (list (nat * option key))
}.

Definition set_adj (s : st) a :=
  {| adj := a; pointStack := pointStack s; markStack := markStack s;
     mark := mark s; cycles := cycles s |}.
Definition set_pointStack (s : st) p :=
  {| adj := adj s; pointStack := p; markStack := markStack s;
     mark := mark s; cycles := cycles s |}.
Definition set_marks (s : st) ms m :=
  {| adj := adj s; pointStack := pointStack s; markStack := ms;
     mark := m; cycles := cycles s |}.
Definition add_cycle (s : st) c :=
  {| adj := adj s; pointStack := pointStack s; markStack := markStack s;
     mark := mark s; cycles := cycles s ++ [c] |}.

(** [l.remove(x)]: the first occurrence. *)
Fixpoint remove_first {A} `{EqDecision A} (x : A) (l : list A) : res (list A) :=
  match l with
  | [] => Raise (ValueError "list.remove(x): x not in list")
  | y :: l' => if decide (x = y) then Ok l'
               else l'' ← remove_first x l'; Ok (y :: l'')
  end.

(** [while markStack[-1] != v: u = markStack.pop(); mark[u] = False]
    followed by [markStack.pop(); mark[v] = False]. *)
Fixpoint unmark_to (v : nat) (ms : list nat) (m : list bool)
  : res (list nat * list bool) :=
  match ms with
  | [] => Raise IndexError
  | u :: ms' =>
      m' ← py_set m u false;
      if decide (u = v) then Ok (ms', m') else unmark_to v ms' m'
  end.

(** The body of [for si, key in sucs] in [backtrack(v)], for the start
    node [ni]; [rec] is the recursive call. The flag [f] is threaded with
    the state. *)
Definition visit_suc (rec : nat -> key -> st -> res (st * bool))
    (ni v : nat) (acc : st * bool) (sk : nat * key) : res (st * bool) :=
  let '(s, f) := acc in
  let '(si, key) := sk in
  if decide (si < ni) then
    row ← py_get (adj s) v;
    row' ← remove_first (si, key) row;
    a ← py_set (adj s) v row';
    Ok (set_adj s a, f)
  else if decide (si = ni) then
    Ok (add_cycle s (rev (pointStack s) ++ [(si, Some key)]), true)
  else
    m ← py_get (mark s) si;
    if (m : bool) then Ok (s, f)
    else r ← rec si key s; Ok (r.1, f || r.2).

(** The recursive function [backtrack(v, pre_key)]. *)
Fixpoint backtrack (fuel : nat) (ni v : nat) (pre_key : option key) (s : st)
  : res (st * bool) :=
  match fuel with
  | 0 => OutOfFuel
  | S fuel' =>
      m ← py_set (mark s) v true;
      let s := {| adj := adj s; pointStack := (v, pre_key) :: pointStack s;
                  markStack := v :: markStack s; mark := m;
                  cycles := cycles s |} in
      sucs ← py_get (adj s) v;
      r ← res_fold (visit_suc (fun si key s => backtrack fuel' ni si (Some key) s)
                      ni v) (s, false) sucs;
      let '(s, f) := r in
      s ← (if (f : bool) then
             um ← unmark_to v (markStack s) (mark s);
             Ok (set_marks s um.1 um.2)
           else Ok s);
      match pointStack s with
      | [] => Raise IndexError
      | _ :: ps => Ok (set_pointStack s ps, f)
      end
  end.

(** [while len(markStack) > 0: i = markStack.pop(); mark[i] = False] *)
Definition unmark_all (s : st) : res st :=
  m ← res_fold (fun m i => py_set m i false) (mark s) (markStack s);
  Ok (set_marks s [] m).

(** The search of [all_cycles]: the cycles as lists of
    [(node index, key)] pairs. *)
Definition search (fuel : nat) (i2n : list node) (adj0 : list (list (nat * key)))
  : res (list (list (nat * option key))) :=
  let s0 := {| adj := adj0; pointStack := []; markStack := [];
               mark := replicate (length i2n) false; cycles := [] |} in
  s ← res_fold (fun s ni => r ← backtrack fuel ni ni None s; unmark_all r.1)
               s0 (seq 0 (length i2n));
  Ok (cycles s).

(** [cycleNodes] of one cycle: its nodes, the last (the first again)
    popped. *)
Definition cycle_nodes (i2n : list node) (c : list (nat * option key))
  : res (list node) :=
  ns ← res_fold (fun acc nk => n ← py_get i2n nk.1; Ok (acc ++ [n])) [] c;
  match ns with
  | [] => Raise IndexError
  | _ :: _ => Ok (removelast ns)
  end.

(** [cycleEdges] of one cycle, already turned into [(node, key)] pairs. *)
Fixpoint cycle_edges (edge_map : gmap edge nat) (c : list (node * option key))
  : res (list nat) :=
  match c with
  | (pre, _) :: (((suc, k) :: _) as c') =>
      match k with
      | Some k =>
          i ← py_key edge_map (pre, suc, k);
          rest ← cycle_edges edge_map c';
          Ok (i :: rest)
      | None => Raise KeyError
      end
  | _ => Ok []
  end.

(** [all_cycles(G)] returns [(cycleNodes, cycleEdges)]. *)
Definition all_cycles (fuel : nat) (G : MultiDiGraph)
  : res (list (list node) * list (list nat)) :=
  a ← adj_lists_multi true G None None;
  let '(i2n, adj0, _) := a in
  cs ← search fuel i2n adj0;
  cycleNodes ← res_fold (fun acc c => ns ← cycle_nodes i2n c; Ok (acc ++ [ns])) [] cs;
  cs' ← res_fold (fun acc c =>
           c' ← res_fold (fun acc nk => n ← py_get i2n nk.1;
                                        Ok (acc ++ [(n, nk.2)])) [] c;
           Ok (acc ++ [c'])) [] cs;
  cycleEdges ← res_fold (fun acc c => es ← cycle_edges (edge_to_idx G) c;
                                      Ok (acc ++ [es])) [] cs';
  Ok (cycleNodes, cycleEdges).

(** [cycle_edge_matrix(G)]: the rows of the incidence matrix, with the
    cycles. *)
Definition cycle_edge_matrix (fuel : nat) (G : MultiDiGraph)
  : res (list (list nat) * list (list node) * list (list nat)) :=
  r ← all_cycles fuel G;
  let '(cycleNodes, cycleEdges) := r in
  ceMat ← res_fold (fun acc ecyc =>
             row ← res_fold (fun row e => py_set row e 1)
                            (replicate (number_of_edges G) 0) ecyc;
             Ok (acc ++ [row])) [] cycleEdges;
  Ok (ceMat, cycleNodes, cycleEdges).

End Cycles.

Definition G_two_loops : MultiDiGraph :=
  {| nodes := [0; 1; 2];
     edges := [(0, 1, 0); (0, 1, 1); (0, 2, 0); (1, 0, 0); (2, 0, 0); (2, 2, 0)];
     edge_arcs := [] |}.



(** ** [select_tear_heuristic] *)

Module Heuristic.

(** The variables shared by the calls of [sear]: [upperBound] and [ySet],
    whose entries are [[y, max(Ay), sum(y)]]. A vector [y] holds 0 (for
    [False]) and 1. *)
Record st : Type := {
  upperBound : nat * nat;
  ySet : list (list nat * nat * nat)
}.

(** [numpy.dot(A, y)] *)
Definition dot (A : list (list nat)) (y : list nat) : list nat :=
  map (fun row => sum_list (zip_with Nat.mul row y)) A.

(** [max(l)] and [min(l)] of a Python list. *)
Definition py_max (l : list nat) : res nat :=
  match l with
  | [] => Raise (ValueError "max() arg is an empty sequence")
  | x :: l' => Ok (foldl Nat.max x l')
  end.
Definition py_min (l : list nat) : res nat :=
  match l with
  | [] => Raise (ValueError "min() arg is an empty sequence")
  | x :: l' => Ok (foldl Nat.min x l')
  end.

(** The body of [for i in range(len(cycleEdges[depth]))], for the edge
    [e = cycleEdges[depth][i]]; [rec] is the recursive call. *)
Definition try_edge (A : list (list nat)) (nr : nat)
    (rec : nat -> list nat -> st -> res st)
    (depth : nat) (prevY : list nat) (s : st) (e : nat) : res st :=
  y ← py_set prevY e 1;
  let Ay := dot A y in
  maxAy ← py_max Ay;
  let sumY := sum_list y in
  if decide ((upperBound s).1 < maxAy) then Ok s
  else if decide (maxAy = (upperBound s).1 ∧ (upperBound s).2 < sumY) then Ok s
  else
    minAy ← py_min Ay;
    if decide (0 < minAy) then
      let ub :=
        if decide (maxAy < (upperBound s).1) then (maxAy, sumY)
        else if decide (sumY < (upperBound s).2) then ((upperBound s).1, sumY)
        else upperBound s in
      Ok {| upperBound := ub; ySet := ySet s ++ [(y, maxAy, sumY)] |}
    else
      res_fold (fun s j =>
                  a ← py_get Ay j;
                  if decide (a = 0) then rec j y s else Ok s)
               s (seq (S depth) (nr - S depth)).

(** The recursive function [sear(depth, prevY)]. *)
Fixpoint sear (fuel : nat) (A : list (list nat)) (cycleEdges : list (list nat))
    (nr : nat) (depth : nat) (prevY : list nat) (s : st) : res st :=
  match fuel with
  | 0 => OutOfFuel
  | S fuel' =>
      ecyc ← py_get cycleEdges depth;
      res_fold (try_edge A nr (sear fuel' A cycleEdges nr) depth prevY) s ecyc
  end.

(** The screening pass: the recorded sets above the final bound are
    deleted. *)
Definition screen (ub : nat * nat) (ys : list (list nat * nat * nat))
  : list (list nat * nat * nat) :=
  filter (fun r => ¬ (ub.1 < r.1.2 ∨ (r.1.2 = ub.1 ∧ ub.2 < r.2))) ys.

(** The comparison loop [for k in range(len(y_init))] of the duplicate
    check; with no edge the flag [eq] is read before it is assigned. *)
Definition same_vector (n : nat) (a b : list nat) : res bool :=
  match n with
  | 0 => Raise UnboundLocalError
  | S _ =>
      res_fold (fun eq k =>
                  if (eq : bool) then
                    x ← py_get a k; y ← py_get b k;
                    Ok (bool_decide (x = y))
                  else Ok false) true (seq 0 n)
  end.

(** The indexes of the duplicates, [deleteSet]. *)
Definition duplicates (n : nat) (ys : list (list nat * nat * nat))
  : res (list nat) :=
  res_fold (fun del i =>
    if bool_decide (i ∈ del) then Ok del
    else res_fold (fun del j =>
           if bool_decide (j ∈ del) then Ok del
           else
             a ← py_get ys i; b ← py_get ys j;
             eq ← same_vector n a.1.1 b.1.1;
             if (eq : bool) then Ok (del ++ [j]) else Ok del)
         del (seq (S i) (length ys - S i)))
    [] (seq 0 (length ys - 1)).

(** [for i in reversed(sorted(deleteSet)): del ySet[i]] *)
Definition delete_indexes {A} (del : list nat) (l : list A) : list A :=
  map snd (filter (fun p => p.1 ∉ del) (imap (fun i x => (i, x)) l)).

(** [edges = [i for i in range(len(y)) if y[i] == 1]] *)
Definition ones (y : list nat) : list nat :=
  filter (fun i => y !! i = Some 1) (seq 0 (length y)).

(** [select_tear_heuristic(G)] returns the tear sets, the maximum number
    of times a cycle is torn and the number of tears. *)
Definition select_tear_heuristic (fuel : nat) (G : MultiDiGraph)
  : res (list (list nat) * nat * nat) :=
  tearUB ← TearUB.tear_upper_bound fuel G;
  m ← Cycles.cycle_edge_matrix fuel G;
  let '(A, _, cycleEdges) := m in
  let nr := length A in
  if decide (nr = 0) then Ok ([[]], 0, 0)
  else
    let ne := number_of_edges G in
    y_init ← res_fold (fun y j => py_set y j 1) (replicate ne 0) tearUB;
    ub0 ← py_max (dot A y_init);
    let s0 := {| upperBound := (ub0, sum_list y_init); ySet := [] |} in
    let y_init := replicate ne 0 in
    s ← sear fuel A cycleEdges nr 0 y_init s0;
    let ys := screen (upperBound s) (ySet s) in
    del ← duplicates (length y_init) ys;
    let ys := delete_indexes del ys in
    Ok (map (fun r => ones r.1.1) ys, (upperBound s).1, (upperBound s).2).

End Heuristic.

(** ** [select_tear_mip] *)

Module Mip.

(** The model built by [select_tear_mip_model]: one binary variable per
    edge and, for each cycle [c], the constraints
    [sum(y[e] for e in c) >= 1] and [max_cycle_tears >= sum(y[e] for e in c)];
    the objective is [1000 * max_cycle_tears + sum(y)]. *)
Record model : Type := {
  n_bin : nat;
  cycle_sums : list (list nat)
}.

(** [select_tear_mip_model(G)] *)
Definition select_tear_mip_model (fuel : nat) (G : MultiDiGraph) : res model :=
  r ← Cycles.all_cycles fuel G;
  let n := number_of_edges G in
  _ ← res_fold (fun (_ : unit) ecyc =>
         res_fold (fun (_ : unit) i => _ ← py_get (replicate n ()) i; Ok ())
                  () ecyc) () r.2;
  Ok {| n_bin := n; cycle_sums := r.2 |}.

(** Modelled from the spec: the algebraic solver is an external
    collaborator; [solver] maps the model to the values of its binary
    variables, or raises. *)
Definition select_tear_mip (fuel : nat) (solver : model -> res (list Z))
    (G : MultiDiGraph) : res (list nat) :=
  mdl ← select_tear_mip_model fuel G;
  vals ← solver mdl;
  Ok (filter (fun i => vals !! i = Some 1%Z) (seq 0 (n_bin mdl))).

(** A solution satisfies the constraints of the model. *)
Definition feasible (mdl : model) (vals : list Z) : Prop :=
  length vals = n_bin mdl ∧
  Forall (fun v => v = 0%Z ∨ v = 1%Z) vals ∧
  Forall (fun c => (1 ≤ foldr Z.add 0 (map (fun e => default 0 (vals !! e)) c))%Z)
         (cycle_sums mdl).

End Mip.


(** A single node with a self-loop: the upper bound [[0, 0]] computed from
    [tear_upper_bound], which tears no self-loop, prunes every candidate. *)
Definition G_self : MultiDiGraph :=
  {| nodes := [0]; edges := [(0, 0, 0)]; edge_arcs := [0] |}.


(** ** The modelling layer seen by the driver *)

Definition var := nat.
Definition port := nat.
Definition arc := nat.

(** A Pyomo variable: its current value and whether it is fixed. *)
Record VarData : Type := { v_value : option float; v_fixed : bool }.

(** What a port member (or one of its indexes) holds: a variable, or an
    expression, named by an identifier. *)
Inductive obj : Type :=
  | OVar (v : var)
  | OExpr (e : nat).

(** A port member: scalar, or indexed (a dict from index to data object). *)
Inductive member : Type :=
  | Scalar (o : obj)
  | Indexed (items : list (nat * obj)).

(** The result of [generate_standard_repn]. *)
Record repn : Type := {
  r_is_fixed : bool;
  r_is_linear : bool;
  r_constant : float;
  r_linear_vars : list var;
  r_linear_coefs : list float
}.

(** The expression handed to [generate_standard_repn]: the body of a
    constraint, or [member - val]. *)
Inductive repn_arg : Type :=
  | RBody (e : nat)
  | RDiff (o : obj) (val : float).

(** An active constraint of an expanded block. *)
Record con : Type := {
  con_name : string;
  con_equality : bool;
  con_body : nat;
  con_lower : float
}.

(** Modelled from the spec: the modelling layer (Pyomo's Port, Arc, Var,
    Constraint and expression classes, [identify_variables] and
    [generate_standard_repn]) is an external collaborator whose code is not
    among the source files. The driver reads it through this interface; every
    theorem below holds for any implementation of it. *)
Record Flowsheet : Type := {
  fs_arcs : list arc;                       (* [model.component_data_objects(Arc)] *)
  arc_directed : arc -> bool;
  arc_expanded : arc -> bool;               (* [arc.expanded_block is not None] *)
  arc_src : arc -> port;
  arc_dest : arc -> port;
  parent_block : port -> node;
  unit_ports : node -> list port;           (* [unit.component_data_objects(Port)] *)
  sources : port -> list arc;
  dests : port -> list arc;
  port_vars : port -> list (string * member);        (* [port.vars], in order *)
  is_extensive : port -> string -> bool;
  eblock_component : arc -> string -> option member; (* [expanded_block.component(name)] *)
  eblock_constraints : arc -> list con;
  expr_vars : nat -> list var;              (* [identify_variables(expr)] *)
  expr_value : nat -> (var -> option float) -> option float;
  standard_repn : repn_arg -> (var -> VarData) -> repn
}.

(** A guess for one member data object: a number, or a list of
    [(arc, value)] pairs. An entry of the guesses of a port is such a guess
    or a dict from index to guess. *)
Inductive gval : Type :=
  | GNum (x : float)
  | GArcs (l : list (arc * float)).

Inductive gentry : Type :=
  | GOne (g : gval)
  | GDict (d : list (nat * gval)).

(** [self.options] *)
Record Options : Type := {
  o_graph : option MultiDiGraph;
  o_tear_set : option (list arc);
  o_select_tear_method : string;
  o_run_first_pass : bool;
  o_solve_tears : bool;
  o_guesses : gmap port (gmap string gentry);
  o_default_guess : option float;
  o_almost_equal_tol : float;
  o_log_info : bool;
  o_tear_method : string;
  o_iterLim : nat;
  o_tol : float;
  o_tol_type : string;
  o_report_diffs : bool;
  o_accel_min : float;
  o_accel_max : float
}.

(** ** The state of the driver and its monad *)

(** The values stored in [self.cache], by key. *)
Inductive cache_val : Type :=
  | CTearSet (tset : list nat)
  | CArcToEdge (m : gmap arc edge)
  | CFixedInputs (m : gmap node (list var))
  | CIdxToNode (l : list node)
  | CNodeToIdx (m : gmap node nat)
  | CIdxToEdge (l : list edge)
  | CEdgeToIdx (m : gmap edge nat).

Record world : Type := {
  vars : gmap var VarData;
  cache : gmap string cache_val
}.

(** The outcome of a computation on a state [S]: a result, or an exception,
    both with the state reached (Python keeps the mutations made before an
    exception is raised), or the fuel of the embedding ran out. *)
Inductive out (S A : Type) : Type :=
  | Done (a : A) (s : S)
  | Fail (e : exn) (s : S)
  | Fuel.
Arguments Done {S A} a s.
Arguments Fail {S A} e s.
Arguments Fuel {S A}.

Definition M (S A : Type) : Type := S -> out S A.

Definition ret {S A} (a : A) : M S A := fun s => Done a s.
Definition bind {S A B} (m : M S A) (f : A -> M S B) : M S B := fun s =>
  match m s with
  | Done a s' => f a s'
  | Fail e s' => Fail e s'
  | Fuel => Fuel
  end.
Definition raise {S A} (e : exn) : M S A := fun s => Fail e s.
Definition get {S} : M S S := fun s => Done s s.
Definition put {S} (s : S) : M S unit := fun _ => Done tt s.
Definition modify {S} (f : S -> S) : M S unit := fun s => Done tt (f s).
Definition out_of_fuel {S A} : M S A := fun _ => Fuel.

#[global] Instance M_ret {S} : MRet (M S) := fun _ a => ret a.
#[global] Instance M_bind {S} : MBind (M S) := fun _ _ f m => bind m f.

(** A pure computation that may raise. *)
Definition lift_res {S A} (r : res A) : M S A :=
  match r with
  | Ok a => ret a
  | Raise e => raise e
  | OutOfFuel => out_of_fuel
  end.

(** [for x in l: body x] *)
Fixpoint for_each {S A} (l : list A) (body : A -> M S unit) : M S unit :=
  match l with
  | [] => ret tt
  | x :: l' => _ ← body x; for_each l' body
  end.

(** [for x in l: acc = body acc x] *)
Fixpoint fold_m {S A B} (body : B -> A -> M S B) (acc : B) (l : list A) : M S B :=
  match l with
  | [] => ret acc
  | x :: l' => acc' ← body acc x; fold_m body acc' l'
  end.

(** ** The cache and the variables *)

Abbreviation W := (M world).

(** [self.cache.clear()] *)
Definition cache_clear : W unit :=
  modify (fun w => {| vars := vars w; cache := ∅ |}).

Definition cache_put (k : string) (v : cache_val) : W unit :=
  modify (fun w => {| vars := vars w; cache := <[k := v]> (cache w) |}).

(** [cacher(key, fcn, *args)]; [inj] and [prj] tell the type of the cached
    value. *)
Definition cacher {A} (k : string) (inj : A -> cache_val)
    (prj : cache_val -> option A) (fcn : W A) : W A :=
  w ← get;
  match cache w !! k with
  | Some c =>
      match prj c with
      | Some a => mret a
      | None => raise (TypeError "cache entry of another type")
      end
  | None => a ← fcn; _ ← cache_put k (inj a); mret a
  end.

Definition prj_tear_set c := match c with CTearSet x => Some x | _ => None end.
Definition prj_arc_to_edge c := match c with CArcToEdge x => Some x | _ => None end.
Definition prj_fixed_inputs c := match c with CFixedInputs x => Some x | _ => None end.
Definition prj_idx_to_node c := match c with CIdxToNode x => Some x | _ => None end.
Definition prj_node_to_idx c := match c with CNodeToIdx x => Some x | _ => None end.
Definition prj_idx_to_edge c := match c with CIdxToEdge x => Some x | _ => None end.
Definition prj_edge_to_idx c := match c with CEdgeToIdx x => Some x | _ => None end.

(** The cached indexers. *)
Definition c_idx_to_node (G : MultiDiGraph) : W (list node) :=
  cacher "idx_to_node" CIdxToNode prj_idx_to_node (mret (idx_to_node G)).
Definition c_node_to_idx (G : MultiDiGraph) : W (gmap node nat) :=
  cacher "node_to_idx" CNodeToIdx prj_node_to_idx (mret (node_to_idx G)).
Definition c_idx_to_edge (G : MultiDiGraph) : W (list edge) :=
  cacher "idx_to_edge" CIdxToEdge prj_idx_to_edge (mret (idx_to_edge G)).
Definition c_edge_to_idx (G : MultiDiGraph) : W (gmap edge nat) :=
  cacher "edge_to_idx" CEdgeToIdx prj_edge_to_idx (mret (edge_to_idx G)).

(** [G.edges[edge]["arc"]] *)
Definition edge_arc (G : MultiDiGraph) (e : edge) : res arc :=
  match index_of e (edges G) with
  | Some i => match edge_arcs G !! i with
              | Some a => Ok a
              | None => Raise KeyError
              end
  | None => Raise KeyError
  end.

(** [arc_to_edge(G)] *)
Definition c_arc_to_edge (G : MultiDiGraph) : W (gmap arc edge) :=
  cacher "arc_to_edge" CArcToEdge prj_arc_to_edge
    (lift_res (res_fold (fun m e => a ← edge_arc G e; Ok (<[a := e]> m))
                        ∅ (edges G))).

(** [fixed_inputs()]: the ledger, a dict from unit to the set of the
    variables the driver fixed for it. It lives in the cache, and every
    access below goes through the cache entry, as the source does through
    the one dict object. *)
Definition fixed_inputs : W (gmap node (list var)) :=
  cacher "fixed_inputs" CFixedInputs prj_fixed_inputs (mret ∅).

Definition put_fixed_inputs (m : gmap node (list var)) : W unit :=
  cache_put "fixed_inputs" (CFixedInputs m).

(** [if unit not in fixed_inputs: fixed_inputs[unit] = ComponentSet()] *)
Definition ledger_ensure (u : node) : W unit :=
  m ← fixed_inputs;
  match m !! u with
  | Some _ => mret tt
  | None => put_fixed_inputs (<[u := []]> m)
  end.

(** [fixed_inputs[unit]] *)
Definition ledger_get (u : node) : W (list var) :=
  m ← fixed_inputs;
  match m !! u with
  | Some l => mret l
  | None => raise KeyError
  end.

(** [fixed_inputs[unit].add(var)] *)
Definition ledger_add (u : node) (v : var) : W unit :=
  m ← fixed_inputs;
  match m !! u with
  | Some l => put_fixed_inputs (<[u := if bool_decide (v ∈ l) then l else l ++ [v]]> m)
  | None => raise KeyError
  end.

(** [fixed_inputs[unit].clear()] *)
Definition ledger_clear (u : node) : W unit :=
  m ← fixed_inputs;
  match m !! u with
  | Some _ => put_fixed_inputs (<[u := []]> m)
  | None => raise KeyError
  end.

Definition unset : VarData := {| v_value := None; v_fixed := false |}.

Definition var_data (w : world) (v : var) : VarData := default unset (vars w !! v).

Definition set_var (v : var) (d : VarData) : W unit :=
  modify (fun w => {| vars := <[v := d]> (vars w); cache := cache w |}).

(** [var.fix(val)] *)
Definition var_fix (v : var) (val : float) : W unit :=
  set_var v {| v_value := Some val; v_fixed := true |}.

(** [var.fix()] *)
Definition var_fix_current (v : var) : W unit :=
  w ← get; set_var v {| v_value := v_value (var_data w v); v_fixed := true |}.

(** [var.free()] *)
Definition var_free (v : var) : W unit :=
  w ← get; set_var v {| v_value := v_value (var_data w v); v_fixed := false |}.

Definition var_is_fixed (v : var) : W bool :=
  w ← get; mret (v_fixed (var_data w v)).

(** Python's [x / y] on floats. *)
Definition py_div (x y : float) : res float :=
  if PrimFloat.eqb y 0 then Raise ZeroDivisionError else Ok (x / y)%float.

(** ** Loading inputs and passing values *)

Section Driver.

Variable fs : Flowsheet.
Variable opts : Options.
(** The callback [function(unit)]: it reads and writes the variables, and
    returns or raises. *)
Variable function : node -> gmap var VarData -> exn + gmap var VarData.

(** [obj.is_fixed()] *)
Definition obj_is_fixed (o : obj) : W bool :=
  w ← get;
  mret (match o with
        | OVar v => v_fixed (var_data w v)
        | OExpr e => forallb (fun v => v_fixed (var_data w v)) (expr_vars fs e)
        end).

(** [value(obj)] *)
Definition obj_value (o : obj) : W float :=
  w ← get;
  match (match o with
         | OVar v => v_value (var_data w v)
         | OExpr e => expr_value fs e (fun v => v_value (var_data w v))
         end) with
  | Some x => mret x
  | None => raise (ValueError "No value for uninitialized NumericValue object")
  end.

(** [mem[index]]: a scalar member answers to the index [None] only. *)
Definition member_at (m : member) (idx : option nat) : res obj :=
  match m, idx with
  | Scalar o, None => Ok o
  | Indexed items, Some k =>
      match list_find (fun p => p.1 = k) items with
      | Some r => Ok r.2.2
      | None => Raise KeyError
      end
  | _, _ => Raise KeyError
  end.

(** The data objects [port.iter_vars] goes through, with the name of
    their member and their index. *)
Definition members_flat (p : port) : list (string * obj * option nat) :=
  flat_map (fun nm =>
              match nm.2 with
              | Scalar o => [(nm.1, o, None)]
              | Indexed items => map (fun ko => (nm.1, ko.2, Some ko.1)) items
              end) (port_vars fs p).

(** The variable behind an object on which [fix], [free] or [value] of a
    variable is called. *)
Definition as_var (o : obj) : res var :=
  match o with
  | OVar v => Ok v
  | OExpr _ => Raise (TypeError "not a variable")
  end.

(** [check_value_fix(port, var, default, fixed, use_guesses, extensive)];
    [fixed] is the ledger entry of the unit [u]. *)
Definition check_value_fix (p : port) (o : obj) (default : option float)
    (u : node) (use_guesses extensive : bool) : W unit :=
  v ← lift_res (as_var o);
  w ← get;
  let val := match v_value (var_data w v) with
             | Some x => Some x
             | None => default
             end in
  match val with
  | None => raise (RuntimeError "Encountered a free inlet variable with no value")
  | Some x => _ ← ledger_add u v; var_fix v x
  end.

(** [pass_single_value(port, name, member, val, fixed)] *)
Definition pass_single_value (p : port) (name : string) (mem : obj)
    (val : float) (u : node) : W unit :=
  let eq_tol := o_almost_equal_tol opts in
  fx ← obj_is_fixed mem;
  if (fx : bool) then
    x ← obj_value mem;
    if (eq_tol <? PrimFloat.abs (x - val))%float
    then raise (RuntimeError "Member is already fixed but has a different value")
    else mret tt
  else
    match mem with
    | OVar v => _ ← ledger_add u v; var_fix v val
    | OExpr _ =>
        w ← get;
        let r := standard_repn fs (RDiff mem val) (var_data w) in
        if r_is_linear r && bool_decide (length (r_linear_vars r) = 1) then
          c ← lift_res (py_get (r_linear_coefs r) 0);
          fval ← lift_res (py_div (0 - r_constant r)%float c);
          v ← lift_res (py_get (r_linear_vars r) 0);
          _ ← ledger_add u v; var_fix v fval
        else raise (RuntimeError "Member had more than one free variable")
    end.

(** [combine_and_fix(port, name, obj, evars, fixed)] *)
Definition combine_and_fix (p : port) (name : string) (o : obj)
    (evars : list obj) (u : node) : W unit :=
  ok ← fold_m (fun acc ev => fx ← obj_is_fixed ev; mret (acc && fx)) true evars;
  if (ok : bool) then
    total ← fold_m (fun acc ev => x ← obj_value ev; mret (acc + x)%float)
                   0%float evars;
    pass_single_value p name o total u
  else raise AssertionError.

(** The expanded variables [evars] of [load_values] for one data object:
    [None] when the first arc has no such component. *)
Definition expanded_vars (p : port) (name : string) (idx : option nat)
  : res (option (list obj)) :=
  let comps := map (fun a => eblock_component fs a name) (sources fs p) in
  match idx with
  | Some i =>
      evars ← res_fold (fun acc c =>
                 match c with
                 | Some m => o ← member_at m (Some i); Ok (acc ++ [o])
                 | None => Raise (TypeError "'NoneType' object is not subscriptable")
                 end) [] comps;
      match evars with
      | [] => Raise IndexError
      | _ :: _ => Ok (Some evars)
      end
  | None =>
      match comps with
      | [] => Raise IndexError
      | None :: _ => Ok None
      | Some _ :: _ =>
          evars ← res_fold (fun acc c =>
                     match c with
                     | Some m => o ← member_at m None; Ok (acc ++ [o])
                     | None => Raise (TypeError "'NoneType' object has no attribute 'is_fixed'")
                     end) [] comps;
          Ok (Some evars)
      end
  end.

(** The body of the loop of [load_values] for one data object yielded by
    [port.iter_vars(fixed=False, names=True)]: the generator skips the
    object when it is fixed at the time it is reached. An object carries
    an index exactly when its member is indexed. *)
Definition load_value (p : port) (default : option float) (u : node)
    (use_guesses : bool) (item : string * obj * option nat) : W unit :=
  let '(name, o, idx) := item in
  fx ← obj_is_fixed o;
  if (fx : bool) then mret tt
  else
    evars ← (if is_extensive fs p name
             then lift_res (expanded_vars p name idx)
             else mret None);
    match evars with
    | Some evars =>
        _ ← for_each evars (fun ev =>
               fx ← obj_is_fixed ev;
               if (fx : bool) then mret tt
               else check_value_fix p ev default u use_guesses true);
        combine_and_fix p name o evars u
    | None =>
        match o with
        | OExpr e =>
            for_each (expr_vars fs e) (fun v =>
              fx ← var_is_fixed v;
              if (fx : bool) then mret tt
              else check_value_fix p (OVar v) default u use_guesses false)
        | OVar _ => check_value_fix p o default u use_guesses false
        end
    end.

(** [load_values(port, default, fixed, use_guesses)] *)
Definition load_values (p : port) (default : option float) (u : node)
    (use_guesses : bool) : W unit :=
  for_each (members_flat p) (load_value p default u use_guesses).

(** The loop [for var, entry, idx in itr] of [load_guesses]. *)
Definition load_guess (p : port) (name : string) (u : node)
    (item : obj * gval * option nat) : W unit :=
  let '(o, entry, idx) := item in
  fx ← obj_is_fixed o;
  if (fx : bool) then mret tt
  else
    first ← lift_res (py_get (sources fs p) 0);
    if is_extensive fs p name && bool_decide (is_Some (eblock_component fs first name))
    then
      match entry with
      | GNum _ => raise (TypeError "'float' object is not iterable")
      | GArcs l =>
          for_each l (fun av =>
            ev ← lift_res (match eblock_component fs av.1 name with
                           | Some m => member_at m idx
                           | None => Raise (TypeError "'NoneType' object is not subscriptable")
                           end);
            fx ← obj_is_fixed ev;
            if (fx : bool) then mret tt
            else v ← lift_res (as_var ev); _ ← ledger_add u v; var_fix v av.2)
      end
    else
      match o, entry with
      | OExpr _, _ =>
          raise (ValueError "Cannot provide guess for expression type member")
      | OVar v, GNum x => _ ← ledger_add u v; var_fix v x
      | OVar v, GArcs _ => raise (TypeError "a number is required")
      end.

(** [load_guesses(guesses, port, fixed)] *)
Definition load_guesses (guesses : gmap port (gmap string gentry)) (p : port)
    (u : node) : W unit :=
  for_each (port_vars fs p) (fun nm =>
    let '(name, mem) := nm in
    match guesses !! p with
    | None => raise KeyError
    | Some g =>
        match g !! name with
        | None => mret tt
        | Some entry =>
            itr ← lift_res
              (match entry with
               | GDict d =>
                   res_fold (fun acc kv => o ← member_at mem (Some kv.1);
                                           Ok (acc ++ [(o, kv.2, Some kv.1)])) [] d
               | GOne g =>
                   match mem with
                   | Indexed _ =>
                       Raise (TypeError "Guess for indexed member must map to a dict of indexes")
                   | Scalar o => Ok [(o, g, None)]
                   end
               end);
            for_each itr (load_guess p name u)
        end
    end).

(** [pass_values(arc, fixed_inputs)] *)
Definition pass_values (a : arc) : W unit :=
  let dest_unit := parent_block fs (arc_dest fs a) in
  let eq_tol := o_almost_equal_tol opts in
  _ ← ledger_ensure dest_unit;
  for_each (eblock_constraints fs a) (fun c =>
    if negb (con_equality c)
    then raise (RuntimeError "Found inequality constraint")
    else
      w ← get;
      let r := standard_repn fs (RBody (con_body c)) (var_data w) in
      if r_is_fixed r then
        if (eq_tol <? PrimFloat.abs (con_lower c - r_constant r))%float
        then raise (RuntimeError "Found connected ports both with fixed but different values")
        else mret tt
      else if negb (r_is_linear r && bool_decide (length (r_linear_vars r) = 1))
      then raise (RuntimeError "Constraint had more than one free variable")
      else
        c0 ← lift_res (py_get (r_linear_coefs r) 0);
        val ← lift_res (py_div (con_lower c - r_constant r)%float c0);
        v ← lift_res (py_get (r_linear_vars r) 0);
        _ ← ledger_add dest_unit v;
        var_fix v val).

(** [for var in port.iter_vars(expr_vars=True, fixed=False):
     fixed_outputs.add(var); var.fix()], returning [fixed_outputs]. *)
Definition fix_outputs (p : port) (fixed_outputs : list var) : W (list var) :=
  fold_m (fun acc item =>
    let o := item.1.2 in
    fx ← obj_is_fixed o;
    if (fx : bool) then mret acc
    else
      let vs := match o with OVar v => [v] | OExpr e => expr_vars fs e end in
      fold_m (fun acc v =>
                fx ← var_is_fixed v;
                if (fx : bool) then mret acc
                else _ ← var_fix_current v;
                     mret (if bool_decide (v ∈ acc) then acc else acc ++ [v]))
             acc vs)
    fixed_outputs (members_flat p).

(** [function(unit)] *)
Definition call_function (u : node) : W unit :=
  w ← get;
  match function u (vars w) with
  | inr vs => put {| vars := vs; cache := cache w |}
  | inl e => raise e
  end.

(** The body of [for unit in lev] in [run_order]. *)
Definition run_unit (G : MultiDiGraph) (edge_map : gmap edge nat)
    (ignore : list nat) (use_guesses : bool) (u : node) : W unit :=
  let guesses := o_guesses opts in
  let default := o_default_guess opts in
  _ ← ledger_ensure u;
  _ ← for_each (unit_ports fs u) (fun p =>
         if decide (length (sources fs p) = 0) then mret tt
         else
           _ ← (if use_guesses && bool_decide (is_Some (guesses !! p))
                then load_guesses guesses p u else mret tt);
           load_values p default u use_guesses);
  _ ← call_function u;
  fixed_ins ← ledger_get u;
  _ ← for_each fixed_ins var_free;
  _ ← ledger_clear u;
  for_each (unit_ports fs u) (fun p =>
    let ds := dests fs p in
    if decide (length ds = 0) then mret tt
    else
      fixed_outputs ← fix_outputs p [];
      _ ← for_each ds (fun a =>
             arc_map ← c_arc_to_edge G;
             e ← lift_res (py_key arc_map a);
             i ← lift_res (py_key edge_map e);
             if bool_decide (i ∈ ignore) then mret tt else pass_values a);
      for_each fixed_outputs var_free).

(** [run_order(G, order, function, ignore, use_guesses)] *)
Definition run_order (G : MultiDiGraph) (order : list (list node))
    (ignore : list nat) (use_guesses : bool) : W unit :=
  _ ← fixed_inputs;
  edge_map ← c_edge_to_idx G;
  for_each order (fun lev =>
    for_each lev (run_unit G edge_map ignore use_guesses)).

End Driver.

(** ** Building the graph, the tear set and the calculation order *)

(** Modelled from the spec: [networkx.MultiDiGraph.add_edge(u, v, arc=a)],
    which is not among the source files. The end points become nodes when
    they are new, the key of the edge is the number of edges already between
    them, and [G.edges] goes through the nodes in the order they were added,
    for each through its successors in the order they were first linked, and
    for each successor through the keys. *)
Definition add_edge (G : MultiDiGraph) (u v : node) (a : arc) : MultiDiGraph :=
  let add_node ns n := if bool_decide (n ∈ ns) then ns else ns ++ [n] in
  let nodes' := add_node (add_node (nodes G) u) v in
  let k := length (filter (fun e => e_src e = u ∧ e_dst e = v) (edges G)) in
  let last_where (P : edge -> bool) :=
    foldl (fun acc ie => if P ie.2 then Some (S ie.1) else acc) None
          (imap (fun i e => (i, e)) (edges G)) in
  let rank n := default 0 (index_of n nodes') in
  let pos :=
    match last_where (fun e => bool_decide (e_src e = u ∧ e_dst e = v)) with
    | Some p => p
    | None =>
        match last_where (fun e => bool_decide (e_src e = u)) with
        | Some p => p
        | None => length (filter (fun e => rank (e_src e) < rank u) (edges G))
        end
    end in
  {| nodes := nodes';
     edges := take pos (edges G) ++ (u, v, k) :: drop pos (edges G);
     edge_arcs := take pos (edge_arcs G) ++ a :: drop pos (edge_arcs G) |}.

Section Orders.

Variable fs : Flowsheet.
Variable opts : Options.
(** The fuel handed to the recursive graph algorithms. *)
Variable fuel : nat.
(** The algebraic solver of [select_tear_mip]. *)
Variable solver : Mip.model -> res (list Z).

(** [create_graph(model)] *)
Definition create_graph : res MultiDiGraph :=
  res_fold (fun G a =>
    if negb (arc_directed fs a)
    then Raise (ValueError "All Arcs must be directed when creating a graph for a model")
    else if negb (arc_expanded fs a)
    then Raise (ValueError "All Arcs must be expanded when creating a graph for a model")
    else Ok (add_edge G (parent_block fs (arc_src fs a))
                        (parent_block fs (arc_dest fs a)) a))
    {| nodes := []; edges := []; edge_arcs := [] |} (fs_arcs fs).

(** [check_tear_set(G, tset)] *)
Definition check_tear_set (G : MultiDiGraph) (tset : list nat) : res bool :=
  r ← SCC.scc_collect fuel G (Some tset);
  Ok (forallb (fun nds => negb (bool_decide (1 < length nds))) r.1.1.1).

(** The views of [G] that a call of [adj_lists] stores in the cache. *)
Definition touch_adj_lists (G : MultiDiGraph) (exclude given_nodes : bool)
  : W unit :=
  _ ← (if exclude then _ ← c_idx_to_edge G; mret tt else mret tt);
  if given_nodes then mret tt else _ ← c_idx_to_node G; mret tt.

(** [tear_set(G)]. Inside [run] the cache was cleared on entry, so the
    cached views are those of [G]: the graph algorithms are run on [G], and
    the views they ask for are stored in the cache. *)
Definition tear_set (G : MultiDiGraph) : W (list nat) :=
  cacher "tear_set" CTearSet prj_tear_set
    (match o_tear_set opts with
     | Some tset =>
         arc_map ← c_arc_to_edge G;
         edge_map ← c_edge_to_idx G;
         r ← lift_res (res_fold (fun acc a =>
                 e ← py_key arc_map a; i ← py_key edge_map e;
                 Ok (acc ++ [i])) [] tset);
         _ ← touch_adj_lists G true false;
         ok ← lift_res (check_tear_set G r);
         _ ← c_idx_to_edge G;
         if (ok : bool) then _ ← cache_put "tear_set" (CTearSet r); mret r
         else raise (ValueError "Tear set found in options is insufficient to solve network")
     | None =>
         let method := o_select_tear_method opts in
         if decide (method = "mip") then
           _ ← touch_adj_lists G false false;
           _ ← c_edge_to_idx G;
           lift_res (Mip.select_tear_mip fuel solver G)
         else if decide (method = "heuristic") then
           _ ← c_idx_to_edge G;
           _ ← touch_adj_lists G false false;
           _ ← c_edge_to_idx G;
           r ← lift_res (Heuristic.select_tear_heuristic fuel G);
           lift_res (py_get r.1.1 0)
         else raise (ValueError "Invalid select_tear_method")
     end).

(** The part of [calculation_order] after the tear set is known. *)
Definition calculation_order_of (G : MultiDiGraph) (tset : list nat)
    (roots nds : option (list node)) : res (list (list node)) :=
  a ← adj_lists G (Some tset) nds;
  let '(i2n, adj, adjR) := a in
  rootsIndex ← match roots with
               | Some rs => r ← res_fold (fun acc n => i ← py_key (node_to_idx G) n;
                                                       Ok (acc ++ [i])) [] rs;
                            Ok (Some r)
               | None => Ok None
               end;
  orderIndex ← TreeOrder.tree_order fuel adj adjR rootsIndex;
  res_fold (fun order lev =>
              lev' ← res_fold (fun acc i => n ← py_get i2n i; Ok (acc ++ [n])) [] lev;
              Ok (order ++ [lev'])) [] orderIndex.

(** [calculation_order(G, roots, nodes)] *)
Definition calculation_order (G : MultiDiGraph) (roots nds : option (list node))
  : W (list (list node)) :=
  tset ← tear_set G;
  _ ← touch_adj_lists G true (bool_decide (is_Some nds));
  _ ← (if bool_decide (is_Some roots) then _ ← c_node_to_idx G; mret tt else mret tt);
  lift_res (calculation_order_of G tset roots nds).

(** [scc_collect(G)] as the driver calls it. *)
Definition c_scc_collect (G : MultiDiGraph)
  : W (list (list node) * list (list nat) * list (list nat) * list (list nat)) :=
  _ ← touch_adj_lists G false false;
  r ← lift_res (SCC.scc_collect fuel G None);
  _ ← (if decide (length r.1.1.1 = 0) then mret tt
       else _ ← c_idx_to_edge G; mret tt);
  mret r.

End Orders.

(** ** The tear streams *)

Section Tears.

Variable fs : Flowsheet.
Variable opts : Options.

(** [G.edges[edge_list[ei]]["arc"]] *)
Definition arc_of_index (G : MultiDiGraph) (edge_list : list edge) (ei : nat)
  : res arc :=
  e ← py_get edge_list ei; edge_arc G e.

(** [source_dest_peer(arc, name, index)] *)
Definition source_dest_peer (a : arc) (name : string) (idx : option nat)
  : res obj :=
  match (if is_extensive fs (arc_src fs a) name
         then eblock_component fs a name else None) with
  | Some evar => member_at evar idx
  | None =>
      match list_find (fun nm => nm.1 = name) (port_vars fs (arc_dest fs a)) with
      | None => Raise KeyError
      | Some r =>
          match r.2.2 with
          | Indexed _ as mem => member_at mem idx
          | Scalar o => Ok o
          end
      end
  end.

(** [value(mem * sf)] when the arc has a [splitfrac], [value(mem)]
    otherwise. *)
Definition source_value (a : arc) (o : obj) : W float :=
  x ← obj_value fs o;
  match eblock_component fs a "splitfrac" with
  | None => mret x
  | Some (Scalar sf) => y ← obj_value fs sf; mret (x * y)%float
  | Some (Indexed _) => raise (TypeError "unsupported operand for *")
  end.

(** [tear_diff_direct(G, tears)] *)
Definition tear_diff_direct (G : MultiDiGraph) (tears : list nat)
  : W (list float * list float) :=
  edge_list ← c_idx_to_edge G;
  fold_m (fun acc tear =>
    a ← lift_res (arc_of_index G edge_list tear);
    fold_m (fun acc item =>
      let '(name, o, idx) := item in
      s ← source_value a o;
      peer ← lift_res (source_dest_peer a name idx);
      d ← obj_value fs peer;
      mret (acc.1 ++ [s], acc.2 ++ [d]))
      acc (members_flat fs (arc_src fs a)))
    ([], []) tears.

(** The loop shared by [pass_edges] and [pass_tear_direct]: the free
    variables of the source port are fixed for the time of [pass_values]. *)
Definition pass_arc (a : arc) : W unit :=
  fixed_outputs ← fix_outputs fs (arc_src fs a) [];
  _ ← fixed_inputs;
  _ ← pass_values fs opts a;
  for_each fixed_outputs var_free.

(** [pass_edges(G, edges)] *)
Definition pass_edges (G : MultiDiGraph) (es : list nat) : W unit :=
  edge_list ← c_idx_to_edge G;
  for_each es (fun ei => a ← lift_res (arc_of_index G edge_list ei); pass_arc a).

(** [pass_tear_direct(G, tears)] *)
Definition pass_tear_direct (G : MultiDiGraph) (tears : list nat) : W unit :=
  edge_list ← c_idx_to_edge G;
  for_each tears (fun ei => a ← lift_res (arc_of_index G edge_list ei); pass_arc a).

(** [pass_tear_wegstein(G, tears, x)] *)
Definition pass_tear_wegstein (G : MultiDiGraph) (tears : list nat)
    (x : list float) : W unit :=
  _ ← fixed_inputs;
  edge_list ← c_idx_to_edge G;
  _ ← fold_m (fun i tear =>
    a ← lift_res (arc_of_index G edge_list tear);
    let dest := arc_dest fs a in
    let dest_unit := parent_block fs dest in
    _ ← ledger_ensure dest_unit;
    fold_m (fun i item =>
      let '(name, o, idx) := item in
      peer ← lift_res (source_dest_peer a name idx);
      xi ← lift_res (py_get x i);
      _ ← pass_single_value fs opts dest name peer xi dest_unit;
      mret (S i))
      i (members_flat fs (arc_src fs a)))
    0 tears;
  mret tt.

(** [generate_gofx(G, tears)] *)
Definition generate_gofx (G : MultiDiGraph) (tears : list nat) : W (list float) :=
  edge_list ← c_idx_to_edge G;
  fold_m (fun acc tear =>
    a ← lift_res (arc_of_index G edge_list tear);
    fold_m (fun acc item => s ← source_value a item.1.2; mret (acc ++ [s]))
           acc (members_flat fs (arc_src fs a)))
    [] tears.

(** [generate_first_x(G, tears)] *)
Definition generate_first_x (G : MultiDiGraph) (tears : list nat) : W (list float) :=
  edge_list ← c_idx_to_edge G;
  fold_m (fun acc tear =>
    a ← lift_res (arc_of_index G edge_list tear);
    fold_m (fun acc item =>
      let '(name, o, idx) := item in
      peer ← lift_res (source_dest_peer a name idx);
      x ← obj_value fs peer;
      mret (acc ++ [x]))
      acc (members_flat fs (arc_src fs a)))
    [] tears.

End Tears.

(** ** The tear methods and [run] *)

(** What the driver does that is seen from outside or counted by the
    properties below: the messages of the logger and of [print], and, as
    ghost events, the calls of [run_order], of [compute_err] and of a tear
    method. *)
Inductive event : Type :=
  | EvSetLevel (restore : bool)
  | EvInfo (msg : string) (n : option nat)
  | EvWarning (msg : string) (n : option nat)
  | EvPrint (err : list float)
  | EvRunOrder (order : list (list node)) (ignore : list nat) (use_guesses : bool)
  | EvComputeErr (svals dvals : list float) (tol_type : string)
  | EvSolveTear (method : string) (order : list (list node))
                (tears outEdges : list nat).

Record dstate : Type := {
  d_world : world;
  d_trace : list event
}.

Abbreviation D := (M dstate).

(** A computation on the world leaves the trace as it is. *)
Definition liftW {A} (m : W A) : D A := fun s =>
  match m (d_world s) with
  | Done a w => Done a {| d_world := w; d_trace := d_trace s |}
  | Fail e w => Fail e {| d_world := w; d_trace := d_trace s |}
  | Fuel => Fuel
  end.

Definition emit (e : event) : D unit :=
  modify (fun s => {| d_world := d_world s; d_trace := d_trace s ++ [e] |}).

Section Run.

Variable fs : Flowsheet.
Variable opts : Options.
Variable function : node -> gmap var VarData -> exn + gmap var VarData.
Variable fuel : nat.
Variable solver : Mip.model -> res (list Z).

(** A call of [run_order]. *)
Definition d_run_order (G : MultiDiGraph) (order : list (list node))
    (ignore : list nat) (use_guesses : bool) : D unit :=
  _ ← emit (EvRunOrder order ignore use_guesses);
  liftW (run_order fs opts function G order ignore use_guesses).

(** A call of [compute_err]. *)
Definition d_compute_err (svals dvals : list float) (tol_type : string)
  : D (list float) :=
  _ ← emit (EvComputeErr svals dvals tol_type);
  lift_res (compute_err svals dvals tol_type).

(** [numpy.max(numpy.abs(err)) < tol] *)
Definition converged (err : list float) (tol : float) : res bool :=
  m ← Np.max (Np.abs err); Ok (m <? tol)%float.

(** [if report_diffs: print("Diff matrix:\n%s" % err)] *)
Definition report (report_diffs : bool) (err : list float) : D unit :=
  if report_diffs then emit (EvPrint err) else mret tt.

(** The loop [while True] of [solve_tear_direct]; it returns the history
    and whether the loop was left by [break]. *)
Fixpoint direct_loop (n : nat) (G : MultiDiGraph) (order : list (list node))
    (tears ignore : list nat) (iterLim : nat) (tol : float) (tol_type : string)
    (report_diffs : bool) (itercount : nat) (hist : list (list float))
  : D (list (list float) * nat * bool) :=
  match n with
  | 0 => out_of_fuel
  | S n' =>
      sd ← liftW (tear_diff_direct fs G tears);
      err ← d_compute_err sd.1 sd.2 tol_type;
      let hist := hist ++ [err] in
      _ ← report report_diffs err;
      c ← lift_res (converged err tol);
      if (c : bool) then mret (hist, itercount, true)
      else if decide (iterLim ≤ itercount)%nat then
        _ ← emit (EvWarning "Direct failed to converge in %s iterations" (Some iterLim));
        mret (hist, itercount, false)
      else
        _ ← liftW (pass_tear_direct fs opts G tears);
        let itercount := S itercount in
        _ ← emit (EvInfo "Running Direct iteration %s" (Some itercount));
        _ ← d_run_order G order ignore false;
        direct_loop n' G order tears ignore iterLim tol tol_type report_diffs
                    itercount hist
  end.

(** [solve_tear_direct(G, order, function, tears, outEdges, iterLim, tol,
    tol_type, report_diffs)]; [n] is the fuel of its loop. *)
Definition solve_tear_direct (n : nat) (G : MultiDiGraph)
    (order : list (list node)) (tears outEdges : list nat) (iterLim : nat)
    (tol : float) (tol_type : string) (report_diffs : bool)
  : D (list (list float)) :=
  let hist := [] in
  if decide (length tears = 0) then
    _ ← d_run_order G order tears false;
    mret hist
  else
    _ ← emit (EvInfo "Starting Direct tear convergence" None);
    let ignore := tears ++ outEdges in
    r ← direct_loop n G order tears ignore iterLim tol tol_type report_diffs 0 hist;
    let '(hist, itercount, brk) := r in
    if (brk : bool) then
      _ ← liftW (pass_edges fs opts G outEdges);
      _ ← emit (EvInfo "Direct converged in %s iterations" (Some itercount));
      mret hist
    else mret hist.

(** The acceleration step of Wegstein's method: the next [x]. *)
Definition wegstein_step (x x_prev gofx gofx_prev : list float)
    (accel_min accel_max : float) : res (list float) :=
  denom ← Np.binop PrimFloat.sub x x_prev;
  num ← Np.binop PrimFloat.sub gofx gofx_prev;
  slope ← Np.binop PrimFloat.div num denom;
  let slope := Np.assign_where is_nan 0%float slope in
  let slope := Np.assign_where is_infinity 0%float slope in
  accel ← Np.binop PrimFloat.div slope (map (fun s => s - 1)%float slope);
  let accel := Np.assign_where (fun a => a <? accel_min)%float accel_min accel in
  let accel := Np.assign_where (fun a => accel_max <? a)%float accel_max accel in
  l ← Np.binop PrimFloat.mul accel x;
  r ← Np.binop PrimFloat.mul (map (fun a => 1 - a)%float accel) gofx;
  Np.binop PrimFloat.add l r.

(** The loop [while True] of [solve_tear_wegstein]. *)
Fixpoint wegstein_loop (n : nat) (G : MultiDiGraph) (order : list (list node))
    (tears ignore : list nat) (iterLim : nat) (tol : float) (tol_type : string)
    (report_diffs : bool) (accel_min accel_max : float)
    (itercount : nat) (hist : list (list float))
    (x x_prev gofx_prev : list float)
  : D (list (list float) * nat * bool) :=
  match n with
  | 0 => out_of_fuel
  | S n' =>
      let itercount := S itercount in
      _ ← emit (EvInfo "Running Wegstein iteration %s" (Some itercount));
      _ ← d_run_order G order ignore false;
      gofx ← liftW (generate_gofx fs G tears);
      err ← d_compute_err gofx x tol_type;
      let hist := hist ++ [err] in
      _ ← report report_diffs err;
      c ← lift_res (converged err tol);
      if (c : bool) then mret (hist, itercount, true)
      else if decide (iterLim < itercount)%nat then
        _ ← emit (EvWarning "Wegstein failed to converge in %s iterations" (Some iterLim));
        mret (hist, itercount, false)
      else
        x' ← lift_res (wegstein_step x x_prev gofx gofx_prev accel_min accel_max);
        _ ← liftW (pass_tear_wegstein fs opts G tears x');
        wegstein_loop n' G order tears ignore iterLim tol tol_type report_diffs
                      accel_min accel_max itercount hist x' x gofx
  end.

(** [solve_tear_wegstein(G, order, function, tears, outEdges, iterLim,
    tol, tol_type, report_diffs, accel_min, accel_max)] *)
Definition solve_tear_wegstein (n : nat) (G : MultiDiGraph)
    (order : list (list node)) (tears outEdges : list nat) (iterLim : nat)
    (tol : float) (tol_type : string) (report_diffs : bool)
    (accel_min accel_max : float) : D (list (list float)) :=
  let hist := [] in
  if decide (length tears = 0) then
    _ ← d_run_order G order tears false;
    mret hist
  else
    _ ← emit (EvInfo "Starting Wegstein tear convergence" None);
    let itercount := 0 in
    let ignore := tears ++ outEdges in
    gofx ← liftW (generate_gofx fs G tears);
    x ← liftW (generate_first_x fs G tears);
    err ← d_compute_err gofx x tol_type;
    let hist := hist ++ [err] in
    _ ← report report_diffs err;
    c ← lift_res (converged err tol);
    if (c : bool) then
      _ ← emit (EvInfo "Wegstein converged in %s iterations" (Some itercount));
      mret hist
    else
      _ ← liftW (pass_tear_wegstein fs opts G tears gofx);
      r ← wegstein_loop n G order tears ignore iterLim tol tol_type report_diffs
                        accel_min accel_max itercount hist gofx x gofx;
      let '(hist, itercount, brk) := r in
      if (brk : bool) then
        _ ← liftW (pass_edges fs opts G outEdges);
        _ ← emit (EvInfo "Wegstein converged in %s iterations" (Some itercount));
        mret hist
      else mret hist.

(** The body of [for sccIndex in lev] in [run]. *)
Definition solve_scc (G : MultiDiGraph) (tset : list nat)
    (sccNodes : list (list node)) (sccEdges outEdges : list (list nat))
    (sccIndex : nat) : D unit :=
  nds ← lift_res (py_get sccNodes sccIndex);
  order ← liftW (calculation_order opts fuel solver G None (Some nds));
  es ← lift_res (py_get sccEdges sccIndex);
  let tears := filter (fun ei => ei ∈ es) tset in
  oe ← lift_res (py_get outEdges sccIndex);
  let tear_method := o_tear_method opts in
  if decide (tear_method = "Direct") then
    _ ← emit (EvSolveTear "Direct" order tears oe);
    _ ← solve_tear_direct (o_iterLim opts + 2) G order tears oe (o_iterLim opts)
           (o_tol opts) (o_tol_type opts) (o_report_diffs opts);
    mret tt
  else if decide (tear_method = "Wegstein") then
    _ ← emit (EvSolveTear "Wegstein" order tears oe);
    _ ← solve_tear_wegstein (o_iterLim opts + 2) G order tears oe (o_iterLim opts)
           (o_tol opts) (o_tol_type opts) (o_report_diffs opts)
           (o_accel_min opts) (o_accel_max opts);
    mret tt
  else raise (ValueError "Invalid tear_method").

(** [run(model, function)] *)
Definition run : D unit :=
  _ ← (if o_log_info opts then emit (EvSetLevel false) else mret tt);
  _ ← emit (EvInfo "Starting Sequential Decomposition" None);
  _ ← liftW cache_clear;
  G ← match o_graph opts with
      | Some G => mret G
      | None => lift_res (create_graph fs)
      end;
  tset ← liftW (tear_set opts fuel solver G);
  _ ← (if o_run_first_pass opts then
         _ ← emit (EvInfo "Starting first pass run of network" None);
         order ← liftW (calculation_order opts fuel solver G None None);
         d_run_order G order tset true
       else mret tt);
  if negb (o_solve_tears opts) || bool_decide (length tset = 0) then
    emit (EvInfo "Finished Sequential Decomposition in %.2f seconds" None)
  else
    _ ← emit (EvInfo "Starting tear convergence procedure" None);
    scc ← liftW (c_scc_collect fuel G);
    let '(sccNodes, sccEdges, sccOrder, outEdges) := scc in
    _ ← for_each sccOrder (fun lev =>
           for_each lev (solve_scc G tset sccNodes sccEdges outEdges));
    _ ← liftW cache_clear;
    _ ← emit (EvInfo "Finished Sequential Decomposition in %.2f seconds" None);
    if o_log_info opts then emit (EvSetLevel true) else mret tt.

End Run.

(** ** A family of small flowsheets *)

(** The flowsheet with one arc per entry of [links] (source unit,
    destination unit): arc [a] leaves port [2 * a] of its source unit and
    enters port [2 * a + 1] of its destination unit; every port has the
    [nmem] scalar members ["m0"], ["m1"], ..., member [k] of port [p] being
    the variable [10 * p + k]; the expanded block of arc [a] holds, for each
    member [k], the equality [src.mk - dest.mk == 0], whose expression is
    named [10 * a + k]. *)
Module Demo.

Definition member_name (k : nat) : string :=
  String (Ascii.ascii_of_nat 109) (String (Ascii.ascii_of_nat (48 + k)) EmptyString).

Definition repn_of (e : nat) (store : var -> VarData) : repn :=
  let s := 10 * (2 * (e / 10)) + e mod 10 in
  let d := 10 * (2 * (e / 10) + 1) + e mod 10 in
  let vs := default 0%float (v_value (store s)) in
  let vd := default 0%float (v_value (store d)) in
  match v_fixed (store s), v_fixed (store d) with
  | true, true =>
      {| r_is_fixed := true; r_is_linear := true; r_constant := (vs - vd)%float;
         r_linear_vars := []; r_linear_coefs := [] |}
  | true, false =>
      {| r_is_fixed := false; r_is_linear := true; r_constant := vs;
         r_linear_vars := [d]; r_linear_coefs := [(-1)%float] |}
  | false, true =>
      {| r_is_fixed := false; r_is_linear := true; r_constant := (- vd)%float;
         r_linear_vars := [s]; r_linear_coefs := [1%float] |}
  | false, false =>
      {| r_is_fixed := false; r_is_linear := true; r_constant := 0%float;
         r_linear_vars := [s; d]; r_linear_coefs := [1%float; (-1)%float] |}
  end.

Definition flowsheet (links : list (node * node)) (nmem : nat) : Flowsheet :=
  let n := length links in
  let src_unit a := default 0 (fst <$> links !! a) in
  let dst_unit a := default 0 (snd <$> links !! a) in
  {| fs_arcs := seq 0 n;
     arc_directed := fun _ => true;
     arc_expanded := fun _ => true;
     arc_src := fun a => 2 * a;
     arc_dest := fun a => 2 * a + 1;
     parent_block := fun p => if Nat.even p then src_unit (p / 2) else dst_unit (p / 2);
     unit_ports := fun u =>
       flat_map (fun a => (if decide (src_unit a = u) then [2 * a] else [])
                          ++ (if decide (dst_unit a = u) then [2 * a + 1] else []))
                (seq 0 n);
     sources := fun p => if Nat.even p then [] else [p / 2];
     dests := fun p => if Nat.even p then [p / 2] else [];
     port_vars := fun p =>
       map (fun k => (member_name k, Scalar (OVar (10 * p + k)))) (seq 0 nmem);
     is_extensive := fun _ _ => false;
     eblock_component := fun _ _ => None;
     eblock_constraints := fun a =>
       map (fun k => {| con_name := member_name k; con_equality := true;
                        con_body := 10 * a + k; con_lower := 0%float |})
           (seq 0 nmem);
     expr_vars := fun _ => [];
     expr_value := fun _ _ => None;
     standard_repn := fun r store =>
       match r with
       | RBody e => repn_of e store
       | RDiff _ _ =>
           {| r_is_fixed := false; r_is_linear := false; r_constant := 0%float;
              r_linear_vars := []; r_linear_coefs := [] |}
       end |}.

(** The options of [__init__], with a given tear set. *)
Definition options (tset : option (list arc)) : Options :=
  {| o_graph := None; o_tear_set := tset; o_select_tear_method := "mip";
     o_run_first_pass := true; o_solve_tears := true; o_guesses := ∅;
     o_default_guess := None; o_almost_equal_tol := 0x1p-27%float;
     o_log_info := false; o_tear_method := "Direct"; o_iterLim := 40;
     o_tol := 0x1p-17%float; o_tol_type := "abs"; o_report_diffs := false;
     o_accel_min := (-5)%float; o_accel_max := 0%float |}.

(** The callback that leaves every variable as it is. *)
Definition nothing (u : node) (vs : gmap var VarData) : exn + gmap var VarData :=
  inr vs.

(** No solver is installed. *)
Definition no_solver (mdl : Mip.model) : res (list Z) :=
  Raise (RuntimeError "No solver").

(** The state in which the given variables are free with the given value. *)
Definition initial (vals : list (var * float)) : dstate :=
  {| d_world := {| vars := list_to_map
                     (map (fun vx => (vx.1, {| v_value := Some vx.2;
                                                v_fixed := false |})) vals);
                   cache := ∅ |};
     d_trace := [] |}.

End Demo.

(** * Properties *)

(** ** Evaluation lemmas for the Python primitives *)

Lemma py_get_Some {A} (l : list A) i x : l !! i = Some x -> py_get l i = Ok x.
Proof. unfold py_get. by intros ->. Qed.

Lemma py_get_Ok {A} (l : list A) i x : py_get l i = Ok x -> l !! i = Some x.
Proof. unfold py_get. by destruct (l !! i); intros [= ->]. Qed.

Lemma py_set_lt {A} (l : list A) i x :
  i < length l -> py_set l i x = Ok (<[i:=x]> l).
Proof. unfold py_set. intros. by rewrite decide_True. Qed.

Lemma py_set_Ok {A} (l l' : list A) i x :
  py_set l i x = Ok l' -> i < length l ∧ l' = <[i:=x]> l.
Proof. unfold py_set. case_decide; by intros [= <-]. Qed.

Lemma py_key_Some {K A} `{Countable K} (d : gmap K A) k x :
  d !! k = Some x -> py_key d k = Ok x.
Proof. unfold py_key. by intros ->. Qed.

Lemma res_bind_Ok {A B} (a : A) (f : A -> res B) : (Ok a ≫= f) = f a.
Proof. done. Qed.

Lemma res_bind_inv {A B} (m : res A) (f : A -> res B) (b : B) :
  (m ≫= f) = Ok b -> exists a, m = Ok a ∧ f a = Ok b.
Proof. destruct m; simpl; try done. eauto. Qed.

Lemma res_fold_app {A S} (body : S -> A -> res S) s l1 l2 :
  res_fold body s (l1 ++ l2) = (res_fold body s l1 ≫= fun s' => res_fold body s' l2).
Proof.
  revert s. induction l1 as [|x l1 IH]; intros s; simpl; [done|].
  destruct (body s x); simpl; auto.
Qed.

(** ** The embedding at work *)

Example tree_order_chain :
  TreeOrder.tree_order 10 [[1]; [2]; []] [[]; [0]; [1]] None = Ok [[0]; [1]; [2]].
Proof. reflexivity. Qed.

Example scc_collect_ring_eval :
  SCC.scc_collect 10 G_ring None
  = Ok ([[3]; [2; 1; 0]], [[]; [0; 2; 3; 4]], [], [[5]; [1]]).
Proof. vm_compute. reflexivity. Qed.

Example compute_err_rel_eval :
  compute_err [0; 0; 4; 0x1p1023]%float [0; 2; 1; -0x1p1023]%float "rel"
  = Ok [0; -2; 0.75; infinity]%float.
Proof. vm_compute. reflexivity. Qed.

Example all_cycles_eval :
  Cycles.all_cycles 10 G_two_loops
  = Ok ([[0; 1]; [0; 1]; [0; 2]; [2]], [[0; 3]; [1; 3]; [2; 4]; [5]]).
Proof. vm_compute. reflexivity. Qed.

Example tear_upper_bound_eval :
  TearUB.tear_upper_bound 10 G_two_loops = Ok [3; 4].
Proof. vm_compute. reflexivity. Qed.

Example select_tear_heuristic_eval :
  Heuristic.select_tear_heuristic 10 G_ring = Ok ([[0; 4]; [2; 3]], 1, 2).
Proof. vm_compute. reflexivity. Qed.

Example select_tear_heuristic_self_loop :
  Heuristic.select_tear_heuristic 10 G_self = Ok ([], 0, 0).
Proof. vm_compute. reflexivity. Qed.

(** ** The SCC order and the condensation (C2) *)

(** The index of the component that holds a node, and the level of
    [sccOrder] that holds a component. *)
Definition scc_of (sccNodes : list (list node)) (n : node) : option nat :=
  fst <$> list_find (fun c => n ∈ c) sccNodes.

Definition level_of (sccOrder : list (list nat)) (i : nat) : option nat :=
  fst <$> list_find (fun lev => i ∈ lev) sccOrder.

(** Every node of the graph lies in exactly one component. *)
Definition partitions (G : MultiDiGraph) (sccNodes : list (list node)) : Prop :=
  forall n, n ∈ nodes G ->
    exists i c, sccNodes !! i = Some c ∧ n ∈ c ∧
      forall j c', sccNodes !! j = Some c' -> n ∈ c' -> j = i.

(** [sccOrder] respects the condensation: an edge from component [j] to
    another component [i] puts [j] in a strictly earlier level than [i]. *)
Definition respects_condensation (G : MultiDiGraph)
    (sccNodes : list (list node)) (sccOrder : list (list nat)) : Prop :=
  forall e i j, e ∈ edges G ->
    scc_of sccNodes (e_src e) = Some j ->
    scc_of sccNodes (e_dst e) = Some i ->
    i ≠ j ->
    exists lj li, level_of sccOrder j = Some lj ∧ level_of sccOrder i = Some li
                  ∧ lj < li.

(** C2 (as the code behaves): on the graph [0 -> 1], [2 -> 3], [3 -> 1]
    [scc_collect] returns the four singleton components, which partition the
    nodes, and an order that does not respect the condensation: the edge
    [3 -> 1] leaves component 2 and enters component 0, and both are in the
    second level. The loop of [scc_calculation_order] leaves its scan of the
    source components at the first one that matches, so component 0 gets the
    predecessor 1 only. *)
Theorem scc_order_breaks_condensation :
  exists sccNodes sccEdges sccOrder outEdges,
    SCC.scc_collect 10 G_join None = Ok (sccNodes, sccEdges, sccOrder, outEdges)
    ∧ sccNodes = [[1]; [0]; [3]; [2]]
    ∧ sccOrder = [[1; 3]; [0; 2]]
    ∧ partitions G_join sccNodes
    ∧ ¬ respects_condensation G_join sccNodes sccOrder.
Proof.
  eexists _, _, _, _. split; [vm_compute; reflexivity|].
  split; [done|]. split; [done|]. split.
  - intros n Hn. simpl in Hn.
    rewrite !elem_of_cons, elem_of_nil in Hn.
    destruct Hn as [ -> | [ -> | [ -> | [ -> | [] ] ] ] ].
    + exists 1, [0]. split; [done|]. split; [by apply list_elem_of_singleton|].
      intros [|[|[|[|j]]]] c' [= <-] Hin; try done;
        rewrite ?elem_of_cons, ?elem_of_nil in Hin; naive_solver.
    + exists 0, [1]. split; [done|]. split; [by apply list_elem_of_singleton|].
      intros [|[|[|[|j]]]] c' [= <-] Hin; try done;
        rewrite ?elem_of_cons, ?elem_of_nil in Hin; naive_solver.
    + exists 3, [2]. split; [done|]. split; [by apply list_elem_of_singleton|].
      intros [|[|[|[|j]]]] c' [= <-] Hin; try done;
        rewrite ?elem_of_cons, ?elem_of_nil in Hin; naive_solver.
    + exists 2, [3]. split; [done|]. split; [by apply list_elem_of_singleton|].
      intros [|[|[|[|j]]]] c' [= <-] Hin; try done;
        rewrite ?elem_of_cons, ?elem_of_nil in Hin; naive_solver.
  - intros H.
    destruct (H (3, 1, 0) 0 2) as (lj & li & Hj & Hi & Hlt).
    + simpl. rewrite !elem_of_cons. auto.
    + vm_compute. reflexivity.
    + vm_compute. reflexivity.
    + done.
    + vm_compute in Hj, Hi. injection Hj as <-. injection Hi as <-. lia.
Qed.

(** The recursion of [sc] hands [depth] down and drops the depth it gets
    back, so [ndepth] is the depth in the search tree and not a visit
    number. On the ring [3 -> 2 -> 1 -> 0 -> 3] (one strongly connected
    component) it returns two components with edges both ways between them,
    and the order of the components is empty. *)
Lemma scc_collect_splits_ring :
  SCC.scc_collect 10 G_ring None
  = Ok ([[3]; [2; 1; 0]], [[]; [0; 2; 3; 4]], [], [[5]; [1]]).
Proof. vm_compute. reflexivity. Qed.

(** ** [tree_order] on a cycle (C6) *)

Definition G_cycle2 : MultiDiGraph :=
  {| nodes := [0; 1]; edges := [(0, 1, 0); (1, 0, 0)]; edge_arcs := [0; 1] |}.

(** C6 (as the code behaves): on the two-node cycle [0 -> 1 -> 0], with no
    roots given, no node is a root, the loop over the levels is not entered
    and [tree_order] returns the empty ordering without raising; so does
    [calculation_order] on the graph with an empty tear set. *)
Theorem tree_order_cycle_returns :
  (forall fuel, TreeOrder.tree_order fuel [[1]; [0]] [[1]; [0]] None = Ok [])
  ∧ adj_lists G_cycle2 (Some []) None = Ok ([0; 1], [[1]; [0]], [[1]; [0]])
  ∧ (forall fuel, calculation_order_of fuel G_cycle2 [] None None = Ok []).
Proof.
  split; [|split].
  - intros [|fuel]; reflexivity.
  - vm_compute. reflexivity.
  - intros [|fuel]; vm_compute; reflexivity.
Qed.

(** ** [compute_err] in float64 arithmetic (C8) *)

(** What [compute_err] returns for one entry in relative mode: the quotient
    [(s - d) / s], but 0 when the quotient is NaN and [s - d] when it is
    infinite. *)
Definition rel_entry (s d : float) : float :=
  let q := ((s - d) / s)%float in
  if is_nan q then 0%float else if is_infinity q then (s - d)%float else q.


Lemma restore_inf_spec (diff err : list float) :
  length diff = length err ->
  restore_inf diff err
  = Ok (zip_with (fun d e => if is_infinity e then d else e) diff err).
Proof.
  intros Hlen. unfold restore_inf.
  set (g := fun d e : float => if is_infinity e then d else e).
  assert (H : forall k cur,
             k <= length err ->
             cur = take (length err - k) (zip_with g diff err) ++ drop (length err - k) err ->
             res_fold (fun err0 i => e ← py_get err0 i;
                         if is_infinity e then d ← py_get diff i; py_set err0 i d
                         else Ok err0) cur (seq (length err - k) k)
             = Ok (zip_with g diff err)).
  { induction k as [|k IH]; intros cur Hk Hcur.
    - simpl. rewrite Nat.sub_0_r in Hcur. subst cur.
      rewrite drop_all, app_nil_r. rewrite take_ge; [done|].
      rewrite length_zip_with. lia.
    - simpl.
      set (j := length err - S k) in *.
      assert (Hj : j < length err) by (unfold j; lia).
      destruct (lookup_lt_is_Some_2 err j Hj) as [e He].
      destruct (lookup_lt_is_Some_2 diff j ltac:(lia)) as [d Hd].
      assert (Hcj : cur !! j = Some e).
      { subst cur. rewrite lookup_app_r; rewrite length_take, length_zip_with; [|lia].
        replace (j - j `min` (length diff `min` length err)) with 0 by lia.
        rewrite lookup_drop. by rewrite Nat.add_0_r. }
      rewrite (py_get_Some _ _ _ Hcj), res_bind_Ok.
      assert (Hlc : length cur = length err).
      { subst cur. rewrite length_app, length_take, length_drop, length_zip_with. lia. }
      replace (S j) with (length err - k) by (unfold j; lia).
      assert (Hnext : forall x, x = g d e -> <[j:=x]> cur
                = take (length err - k) (zip_with g diff err) ++ drop (length err - k) err).
      { intros x ->. subst cur.
        rewrite insert_app_r_alt; rewrite length_take, length_zip_with; [|lia].
        replace (j - j `min` (length diff `min` length err)) with 0 by lia.
        replace (length err - k) with (S j) by (unfold j; lia).
        erewrite (take_S_r _ j (g d e)); [|by rewrite lookup_zip_with, Hd, He].
        rewrite <- app_assoc. f_equal.
        rewrite (drop_S err e j He). done. }
      destruct (is_infinity e) eqn:Hinf.
      + rewrite (py_get_Some _ _ _ Hd), res_bind_Ok, py_set_lt, res_bind_Ok by lia.
        apply IH; [lia|]. apply Hnext. unfold g. by rewrite Hinf.
      + rewrite res_bind_Ok. apply IH; [lia|]. rewrite <- (Hnext e).
        * by rewrite list_insert_id.
        * unfold g. by rewrite Hinf. }
  specialize (H (length err) err). rewrite Nat.sub_diag in H.
  apply H; [lia|]. by rewrite drop_0.
Qed.

Lemma binop_same_length f (a b : list float) :
  length a = length b -> Np.binop f a b = Ok (zip_with f a b).
Proof. intros. unfold Np.binop. by rewrite decide_True. Qed.

Lemma compute_err_abs (svals dvals : list float) :
  length svals = length dvals ->
  compute_err svals dvals "abs" = Ok (zip_with PrimFloat.sub svals dvals).
Proof.
  intros Hlen. unfold compute_err. 
  rewrite bool_decide_false by (rewrite !elem_of_cons; naive_solver).
  by rewrite binop_same_length.
Qed.

Lemma compute_err_rel (svals dvals : list float) :
  length svals = length dvals ->
  compute_err svals dvals "rel" = Ok (zip_with rel_entry svals dvals).
Proof.
  intros Hlen. unfold compute_err.
  rewrite bool_decide_false by (rewrite !elem_of_cons; naive_solver).
  rewrite binop_same_length, res_bind_Ok by done.
  destruct (decide ("rel" = "abs")) as [?|_]; [done|].
  rewrite binop_same_length, res_bind_Ok by (rewrite length_zip_with; lia).
  set (diff := zip_with PrimFloat.sub svals dvals).
  set (err := Np.assign_where is_nan 0%float (zip_with PrimFloat.div diff svals)).
  assert (Hl : length diff = length err).
  { unfold err, Np.assign_where, diff. rewrite length_map, !length_zip_with. lia. }
  assert (Hres : zip_with (fun d e => if is_infinity e then d else e) diff err
                 = zip_with rel_entry svals dvals).
  { unfold err, diff, Np.assign_where. clear. revert dvals.
    induction svals as [|s svals IH]; intros [|d dvals]; simpl; try done.
    f_equal; [|apply IH]. unfold rel_entry. simpl.
    destruct (is_nan ((s - d) / s)); [|done]. done. }
  destruct (existsb is_infinity err) eqn:Hex.
  - rewrite restore_inf_spec by done. by rewrite Hres.
  - f_equal. rewrite <- Hres.
    clear Hres. revert Hl Hex. generalize diff err. clear.
    induction diff as [|d diff IH]; intros [|e err]; simpl; try done.
    intros [= Hl] [He Hex]%orb_false_iff. rewrite He. f_equal. by apply IH.
Qed.

Lemma eqb_zero_SF (x : float) :
  (x =? 0)%float = true -> exists b, Prim2SF x = S754_zero b.
Proof.
  rewrite FloatAxioms.eqb_spec. change (Prim2SF 0) with (S754_zero false).
  destruct (Prim2SF x) as [b|b| |b m e]; unfold SFeqb; simpl; try done; eauto.
  - by destruct b.
  - by destruct b.
Qed.

Lemma is_nan_SF (x : float) : is_nan x = true <-> Prim2SF x = S754_nan.
Proof.
  unfold is_nan. rewrite FloatAxioms.eqb_spec.
  destruct (Prim2SF x) as [b|b| |b m e]; unfold SFeqb; simpl; try done.
  - by destruct b.
  - destruct b; simpl; rewrite Z.compare_refl, Pos.compare_cont_refl; done.
Qed.

Lemma is_infinity_SF (x : float) :
  is_infinity x = true <-> exists b, Prim2SF x = S754_infinity b.
Proof.
  unfold is_infinity. rewrite FloatAxioms.eqb_spec, FloatAxioms.abs_spec.
  change (Prim2SF infinity) with (S754_infinity false).
  destruct (Prim2SF x) as [b|b| |b m e]; unfold SFeqb; simpl; split; try done;
    try (by intros [? ?]); eauto.
Qed.

Lemma rel_entry_zero_zero (s d : float) :
  (s =? 0)%float = true -> (s - d =? 0)%float = true -> rel_entry s d = 0%float.
Proof.
  intros [bs Hs]%eqb_zero_SF [bd Hd]%eqb_zero_SF. unfold rel_entry. simpl.
  assert (Hn : is_nan ((s - d) / s) = true).
  { apply is_nan_SF. rewrite FloatAxioms.div_spec, Hs, Hd. done. }
  by rewrite Hn.
Qed.

Lemma rel_entry_zero_nonzero (s d : float) :
  (s =? 0)%float = true -> (s - d =? 0)%float = false -> is_nan (s - d) = false ->
  rel_entry s d = (s - d)%float.
Proof.
  intros [bs Hs]%eqb_zero_SF Hd Hn. unfold rel_entry. simpl.
  assert (Hq : exists b, Prim2SF ((s - d) / s) = S754_infinity b).
  { rewrite FloatAxioms.div_spec, Hs.
    destruct (Prim2SF (s - d)) as [b|b| |b m e] eqn:E.
    - exfalso. revert Hd. rewrite FloatAxioms.eqb_spec, E. done.
    - simpl. eauto.
    - exfalso. apply is_nan_SF in E. congruence.
    - simpl. eauto. }
  assert (Hnq : is_nan ((s - d) / s) = false).
  { destruct Hq as [b Hq]. destruct (is_nan ((s - d) / s)) eqn:E; [|done].
    apply is_nan_SF in E. congruence. }
  rewrite Hnq. apply is_infinity_SF in Hq. by rewrite Hq.
Qed.

Lemma rel_entry_not_nan (s d : float) :
  is_nan (s - d) = false -> is_nan (rel_entry s d) = false.
Proof.
  intros Hn. unfold rel_entry. simpl.
  destruct (is_nan ((s - d) / s)) eqn:E1; [done|].
  destruct (is_infinity ((s - d) / s)); done.
Qed.

Lemma rel_entry_inf (s d : float) :
  is_infinity (rel_entry s d) = true -> is_infinity (s - d) = true.
Proof.
  unfold rel_entry. simpl.
  destruct (is_nan ((s - d) / s)) eqn:E1; [done|].
  destruct (is_infinity ((s - d) / s)) eqn:E2; [done|]. by rewrite E2.
Qed.

Definition all_finite (a : list float) : Prop :=
  Forall (fun x => is_finite x = true) a.

(** C8, amended: for vectors of equal length [compute_err] returns [s - d]
    entry by entry in absolute mode and [rel_entry s d] in relative mode: the
    quotient [(s - d) / s], except that an entry with [s = 0] and [s - d = 0]
    yields 0 and an entry with [s = 0] and [s - d] nonzero yields [s - d];
    the result holds a NaN only where [s - d] is NaN and an infinity only
    where [s - d] is infinite. *)
Theorem compute_err_entries (svals dvals : list float)
    (Hlen : length svals = length dvals) :
  compute_err svals dvals "abs" = Ok (zip_with PrimFloat.sub svals dvals)
  ∧ compute_err svals dvals "rel" = Ok (zip_with rel_entry svals dvals)
  ∧ (forall s d, is_nan ((s - d) / s) = false -> is_infinity ((s - d) / s) = false ->
                 rel_entry s d = ((s - d) / s)%float)
  ∧ (forall s d, (s =? 0)%float = true -> (s - d =? 0)%float = true ->
                 rel_entry s d = 0%float)
  ∧ (forall s d, (s =? 0)%float = true -> (s - d =? 0)%float = false ->
                 is_nan (s - d) = false -> rel_entry s d = (s - d)%float)
  ∧ (forall s d, is_nan (s - d) = false -> is_nan (rel_entry s d) = false)
  ∧ (forall s d, is_infinity (rel_entry s d) = true -> is_infinity (s - d) = true).
Proof.
  split; [by apply compute_err_abs|].
  split; [by apply compute_err_rel|].
  split; [intros s d H1 H2; unfold rel_entry; simpl; by rewrite H1, H2|].
  split; [apply rel_entry_zero_zero|].
  split; [apply rel_entry_zero_nonzero|].
  split; [apply rel_entry_not_nan|apply rel_entry_inf].
Qed.

Lemma compute_err_entries_witness :
  length [0; 4]%float = length [0; 1]%float
  ∧ compute_err [0; 4]%float [0; 1]%float "rel"
    = Ok (zip_with rel_entry [0; 4]%float [0; 1]%float).
Proof.
  split; [reflexivity|].
  apply (compute_err_entries [0; 4]%float [0; 1]%float). reflexivity.
Defined.

(** C8 as stated fails: the difference of two finite floats overflows, and
    the result holds an infinity. *)
Lemma compute_err_not_finite :
  ¬ (forall svals dvals tol_type err,
       length svals = length dvals ->
       all_finite svals -> all_finite dvals ->
       compute_err svals dvals tol_type = Ok err ->
       all_finite err).
Proof.
  intros H.
  assert (Hf : all_finite [infinity]).
  { apply (H [0x1p1023%float] [(-0x1p1023)%float] "abs"); try reflexivity.
    - by repeat constructor.
    - by repeat constructor. }
  apply Forall_inv in Hf. vm_compute in Hf. discriminate.
Qed.

Example compute_err_rel_overflow :
  compute_err [0x1p1023]%float [-0x1p1023]%float "rel" = Ok [infinity].
Proof. vm_compute. reflexivity. Qed.

